(** * Adafruit_CircuitPython_EPD: the IL0373 e-paper driver

    A shallow embedding of [adafruit_epd/epd.py] (class [Adafruit_EPD]) and
    [adafruit_epd/il0373.py] (class [Adafruit_IL0373]).

    Python integers are [Z]; [//] and [%] with a positive divisor are
    [Z.div] and [Z.modulo]; [&], [|], [^], [~], [<<], [>>] are [Z.land],
    [Z.lor], [Z.lxor], [Z.lnot], [Z.shiftl], [Z.shiftr].  Methods are
    computations in a small state-and-exception monad: the drawing methods
    run on the frame store, the transport methods on the serial bus. *)

From Stdlib Require Import ZArith List Bool Lia.
From Stdlib Require String.
Import ListNotations.
Open Scope Z_scope.

(* ===================================================================== *)
(** * Python outcomes *)

Module Py.

Inductive exn : Set := TypeError | ValueError | AttributeError.

(** A call returns a value, raises, or never comes back (a spin loop
    whose condition cannot change). The state reached is kept in all
    three cases. *)
Inductive outcome (S A : Type) : Type :=
| Return (a : A) (s : S)
| Raise (e : exn) (s : S)
| Hang (s : S).
Arguments Return {S A} a s.
Arguments Raise {S A} e s.
Arguments Hang {S A} s.

Definition M (S A : Type) : Type := S -> outcome S A.

Definition ret {S A} (a : A) : M S A := fun s => Return a s.

Definition raise {S A} (e : exn) : M S A := fun s => Raise e s.

Definition bind {S A B} (m : M S A) (k : A -> M S B) : M S B :=
  fun s =>
    match m s with
    | Return a s' => k a s'
    | Raise e s' => Raise e s'
    | Hang s' => Hang s'
    end.

Declare Scope py_scope.
Delimit Scope py_scope with py.
Notation "x <- m ;; k" := (bind m (fun x => k))
  (at level 61, m at next level, right associativity) : py_scope.
Notation "m ;; k" := (bind m (fun _ => k))
  (at level 61, right associativity) : py_scope.
Open Scope py_scope.

(** [for i in range(n): body(i)], counting up from [i]. *)
Fixpoint for_from {S} (n : nat) (i : Z) (body : Z -> M S unit) : M S unit :=
  match n with
  | O => ret tt
  | Datatypes.S n' => body i ;; for_from n' (i + 1) body
  end.

Definition for_range {S} (n : Z) (body : Z -> M S unit) : M S unit :=
  for_from (Z.to_nat n) 0 body.

(** [for _ in range(n): a = body(a)]: a loop that carries one variable. *)
Fixpoint loop {S A} (n : nat) (body : A -> M S A) (a : A) : M S A :=
  match n with
  | O => ret a
  | Datatypes.S n' => a' <- body a ;; loop n' body a'
  end.

(** [int(a / b)]: true division, then truncation toward zero. The quotient
    by 8 is exact in binary floating point for the magnitudes a panel has. *)
Definition int_truediv (a b : Z) : Z := Z.quot a b.

(** A value as it is passed in a call: the receiver object or an integer. *)
Inductive value : Set := Self | Int (n : Z).

End Py.

Import Py.
Open Scope py_scope.

(* ===================================================================== *)
(** * The auxiliary store *)

Module Adafruit_MCP_SRAM.

(** The store operations a driver invoked, oldest first. *)
Inductive op : Set :=
| Read8 (addr : Z)
| Write8 (addr value : Z)
| Erase (addr length value : Z).

(** Modelled from the spec: [adafruit_epd/mcp_sram.py] is missing; the store
    is "an addressable byte store" holding one byte per address. *)
Record t : Type := { mem : Z -> Z; ops : list op }.

(** Modelled from the spec: [read8] of the missing [mcp_sram.py],
    "read byte at address": [read8(address) -> byte]. *)
Definition read8 (addr : Z) : M t Z :=
  fun s => Return (mem s addr) {| mem := mem s; ops := ops s ++ [Read8 addr] |}.

(** Modelled from the spec: [write8] of the missing [mcp_sram.py],
    "write byte at address": [write8(address, byte)]. *)
Definition write8 (addr value : Z) : M t unit :=
  fun s => Return tt
    {| mem := fun a => if a =? addr then value else mem s a;
       ops := ops s ++ [Write8 addr value] |}.

(** Modelled from the spec: [erase] of the missing [mcp_sram.py],
    "bulk erase/fill a range": [erase(start, length, fill_byte)]. *)
Definition erase (addr length value : Z) : M t unit :=
  fun s => Return tt
    {| mem := fun a => if (addr <=? a) && (a <? addr + length) then value else mem s a;
       ops := ops s ++ [Erase addr length value] |}.

End Adafruit_MCP_SRAM.

(* ===================================================================== *)
(** * The serial bus and the control pins *)

Module Bus.

Inductive pin : Set := CS | DC | SRAM_CS.

(** What a recording bus and recording pins see, oldest first. *)
Inductive event : Set :=
| PinSet (p : pin) (level : bool)
| TryLock
| Unlock
| BusWrite (bytes : list Z)
| Exchange (out inp : Z)
| Sleep (ms : Z)
| BusyRead (level : bool).

(** The bus lock, the environment (the byte shifted in at each full-duplex
    exchange, the number of polls the busy line stays low at each wait) and
    the recording. *)
Record t : Type := {
  locked : bool;
  exchanged : nat;
  waited : nat;
  miso : nat -> Z;
  ready_after : nat -> nat;
  log : list event }.

(** One more event on the recording. *)
Definition emit (e : event) : M t unit :=
  fun w => Return tt
    {| locked := locked w; exchanged := exchanged w; waited := waited w;
       miso := miso w; ready_after := ready_after w; log := log w ++ [e] |}.

(** [pin.value = level] *)
Definition set_value (p : pin) (level : bool) : M t unit := emit (PinSet p level).

(** [while not spi.try_lock(): pass]. Nothing else runs, so a lock that is
    held stays held and the loop spins for ever. *)
Definition try_lock_spin : M t unit :=
  fun w =>
    if locked w then Hang w
    else Return tt
      {| locked := true; exchanged := exchanged w; waited := waited w;
         miso := miso w; ready_after := ready_after w; log := log w ++ [TryLock] |}.

(** [spi.unlock()]: the bus is free afterwards, whether it was held or not. *)
Definition unlock : M t unit :=
  fun w => Return tt
    {| locked := false; exchanged := exchanged w; waited := waited w;
       miso := miso w; ready_after := ready_after w; log := log w ++ [Unlock] |}.

(** [spi.write(buf)] *)
Definition write (buf : list Z) : M t unit := emit (BusWrite buf).

(** One byte out, one byte in. A byte buffer receives a value in 0..255. *)
Definition exchange (out : Z) : M t Z :=
  fun w =>
    let inp := miso w (exchanged w) mod 256 in
    Return inp
      {| locked := locked w; exchanged := Datatypes.S (exchanged w); waited := waited w;
         miso := miso w; ready_after := ready_after w;
         log := log w ++ [Exchange out inp] |}.

(** [spi.write_readinto(out, inp)]: returns the new contents of [inp]. *)
Fixpoint write_readinto (out : list Z) : M t (list Z) :=
  match out with
  | [] => ret []
  | o :: out' => b <- exchange o ;; bs <- write_readinto out' ;; ret (b :: bs)
  end.

(** [time.sleep(s)], in milliseconds. *)
Definition sleep (ms : Z) : M t unit := emit (Sleep ms).

(** The readings of the busy line during one wait: [low] times False, then
    True. *)
Fixpoint poll (low : nat) : M t unit :=
  match low with
  | O => emit (BusyRead true)
  | Datatypes.S low' => emit (BusyRead false) ;; poll low'
  end.

(** [while self._busy.value is False: pass], for a controller that does
    become ready: the environment says after how many readings. *)
Definition wait_busy : M t unit :=
  fun w =>
    poll (ready_after w (waited w))
      {| locked := locked w; exchanged := exchanged w; waited := Datatypes.S (waited w);
         miso := miso w; ready_after := ready_after w; log := log w |}.

(** [bytearray([b0, b1, ...])]: every element must be in range(256). *)
Definition bytearray {S} (l : list Z) : M S (list Z) :=
  if forallb (fun b => (0 <=? b) && (b <? 256)) l then ret l else raise ValueError.

End Bus.

(* ===================================================================== *)
(** * The bus together with the reset pin *)

Module Board.

(** The reset pin is driven by [begin] only. Each level written to it is kept
    with the number of bus events recorded before the write, which places it
    in the recording of the bus. *)
Record t : Type := {
  bus : Bus.t;
  rst_writes : list (nat * bool) }.

(** A bus operation, run on the bus of the board. *)
Definition on_bus {A} (m : M Bus.t A) : M t A :=
  fun b =>
    match m (bus b) with
    | Return a w => Return a {| bus := w; rst_writes := rst_writes b |}
    | Raise e w => Raise e {| bus := w; rst_writes := rst_writes b |}
    | Hang w => Hang {| bus := w; rst_writes := rst_writes b |}
    end.

(** [self._rst.value = level] *)
Definition set_rst (level : bool) : M t unit :=
  fun b => Return tt
    {| bus := bus b;
       rst_writes := rst_writes b ++ [(length (Bus.log (bus b)), level)] |}.

End Board.

(* ===================================================================== *)
(** * The image a caller hands to [image] *)

Module PIL.

Import String.
Open Scope string_scope.

Definition RGB : string := "RGB".

(** What [image] asks of its argument: [image.mode], [image.size] and the
    pixel access [image.load()]; [pix x y] is what [pix[x, y]] evaluates to,
    a pixel or the exception the access raises. *)
Record image : Type := {
  mode : string;
  size : Z * Z;
  pix : Z -> Z -> exn + (Z * Z * Z) }.

End PIL.

(* ===================================================================== *)
(** * epd.py: class Adafruit_EPD *)

Module Adafruit_EPD.

Definition BLACK : Z := 0.
Definition WHITE : Z := 1.
Definition INVERSE : Z := 2.
Definition RED : Z := 3.
Definition DARK : Z := 4.
Definition LIGHT : Z := 5.

(** The attributes the methods read and never assign. [has_sram] and
    [has_busy] are the truth values of [self.sram] and [self._busy];
    [_bw_buffer] and [_red_buffer] are [None] on an object that lacks the
    attribute (no method of the two classes assigns them). *)
Record panel : Type := {
  width : Z;
  height : Z;
  has_sram : bool;
  has_busy : bool;
  _bw_buffer : option (list Z);
  _red_buffer : option (list Z) }.

(** The state the drawing methods act on: the store behind [self.sram] and
    the recorded calls of [draw_pixel]. *)
Record surface : Type := {
  sram : Adafruit_MCP_SRAM.t;
  drawn : list (value * value * value) }.

(** A store operation, run on the store of the surface. *)
Definition on_sram {A} (m : M Adafruit_MCP_SRAM.t A) : M surface A :=
  fun st =>
    match m (sram st) with
    | Return a s => Return a {| sram := s; drawn := drawn st |}
    | Raise e s => Raise e {| sram := s; drawn := drawn st |}
    | Hang s => Hang {| sram := s; drawn := drawn st |}
    end.

(** [def data(self, dat)] *)
Definition data (dat : list Z) : M Bus.t unit :=
  Bus.set_value Bus.DC true ;;
  Bus.write dat ;;
  Bus.set_value Bus.CS true ;;
  Bus.unlock.

(** [def command(self, cmd, data=None, end=True)] *)
Definition command (cmd : Z) (data_ : option (list Z)) (end_ : bool) : M Bus.t Z :=
  Bus.set_value Bus.CS true ;;
  Bus.set_value Bus.DC false ;;
  Bus.set_value Bus.CS false ;;
  Bus.try_lock_spin ;;
  out <- Bus.bytearray [cmd] ;;
  outbuf <- Bus.write_readinto out ;;
  match data_ with
  | Some dat => data dat
  | None => if end_ then Bus.set_value Bus.CS true else ret tt
  end ;;
  Bus.unlock ;;
  ret (nth 0 outbuf 0).

(** [def draw_pixel(self, x, y, color): pass], called with the positional
    arguments [args] after the receiver. A call that does not supply
    exactly three is a TypeError; the body does nothing, the call is
    recorded. *)
Definition draw_pixel (args : list value) : M surface unit :=
  match args with
  | [x; y; color] =>
      fun st => Return tt {| sram := sram st; drawn := drawn st ++ [(x, y, color)] |}
  | _ => raise TypeError
  end.

(** The body of [fill_rect] once its parameters are bound. *)
Definition fill_rect_body (self : panel) (x y width_ height_ : Z) (color : value)
  : M surface unit :=
  if (width_ <? 1) || (height_ <? 1) || (x + width_ <=? 0) then ret tt
  else if (y + height_ <=? 0) || (y >=? height self) || (x >=? width self) then ret tt
  else
    let xend := Z.min (width self) (x + width_) in
    let yend := Z.min (height self) (y + height_) in
    let x := Z.max x 0 in
    let y := Z.max y 0 in
    for_range (xend - x) (fun _x =>
      for_range (yend - y) (fun _y =>
        draw_pixel [Int (x + _x); Int (y + _y); color])).

(** [def fill_rect(self, x, y, width, height, color)], called with the
    positional arguments [args] after the receiver: five are expected, and
    every call site hands integers for the four coordinates. *)
Definition fill_rect (self : panel) (args : list value) : M surface unit :=
  match args with
  | [Int x; Int y; Int width_; Int height_; color] =>
      fill_rect_body self x y width_ height_ color
  | _ => raise TypeError
  end.

(** [def fill(self, color)] *)
Definition fill (self : panel) (color : Z) : M surface unit :=
  fill_rect self [Self; Int 0; Int 0; Int (width self); Int (height self); Int color].

(** [def pixel(self, x, y, color=None)] *)
Definition pixel (self : panel) (x y color : Z) : M surface unit :=
  if (x <? 0) || (x >=? width self) || (y <? 0) || (y >=? height self) then ret tt
  else draw_pixel [Self; Int x; Int y; Int color].

(** [def hline(self, x, y, width, color)] *)
Definition hline (self : panel) (x y width_ color : Z) : M surface unit :=
  fill_rect self [Int x; Int y; Int width_; Int 1; Int color].

(** [def vline(self, x, y, height, color)] *)
Definition vline (self : panel) (x y height_ color : Z) : M surface unit :=
  fill_rect self [Int x; Int y; Int 1; Int height_; Int color].

(** [def rect(self, x, y, width, height, color)] *)
Definition rect (self : panel) (x y width_ height_ color : Z) : M surface unit :=
  fill_rect self [Int x; Int y; Int width_; Int 1; Int color] ;;
  fill_rect self [Int x; Int (y + height_); Int width_; Int 1; Int color] ;;
  fill_rect self [Self; Int x; Int y; Int 1; Int height_; Int color] ;;
  fill_rect self [Self; Int (x + width_); Int y; Int 1; Int height_; Int color].

(** [digitalio.Direction] *)
Inductive direction : Set := OUTPUT | INPUT.

Module Init.

(** The attributes [__init__] assigns, over whatever the caller's pin and bus
    objects are. [sram] keeps the two arguments the store is built from
    ([Adafruit_MCP_SRAM(srcs_pin, spi)], whose constructor is in the missing
    [mcp_sram.py]); [directions] keeps the [direction] assignments in the
    order they are made. *)
Record t (A : Type) : Type := {
  width : Z;
  height : Z;
  _rst : A;
  _busy : A;
  _dc : A;
  _cs : A;
  spi_device : A;
  sram : A * A;
  directions : list (A * direction) }.

Arguments width {A} t.
Arguments height {A} t.
Arguments _rst {A} t.
Arguments _busy {A} t.
Arguments _dc {A} t.
Arguments _cs {A} t.
Arguments spi_device {A} t.
Arguments sram {A} t.
Arguments directions {A} t.

End Init.

(** [def __init__(self, width, height, rst_pin, dc_pin, busy_pin, srcs_pin,
    cs_pin, spi)] *)
Definition __init__ {A} (width_ height_ : Z) (rst_pin dc_pin busy_pin srcs_pin cs_pin spi : A)
  : Init.t A :=
  {| Init.width := width_;
     Init.height := height_;
     Init._rst := rst_pin;
     Init._busy := busy_pin;
     Init._dc := dc_pin;
     Init._cs := cs_pin;
     Init.spi_device := spi;
     Init.sram := (srcs_pin, spi);
     Init.directions :=
       [(rst_pin, OUTPUT); (busy_pin, INPUT); (dc_pin, OUTPUT); (cs_pin, OUTPUT)] |}.

(** [def begin(self, reset=True)] *)
Definition begin (reset : bool) : M Board.t unit :=
  Board.on_bus (Bus.set_value Bus.CS true) ;;
  Board.on_bus (Bus.set_value Bus.DC false) ;;
  if reset then
    Board.set_rst false ;;
    Board.on_bus (Bus.sleep 100) ;;
    Board.set_rst true ;;
    Board.on_bus (Bus.sleep 100)
  else ret tt.

End Adafruit_EPD.

(* ===================================================================== *)
(** * il0373.py: class Adafruit_IL0373 *)

Module Adafruit_IL0373.

Import Adafruit_EPD.

Definition _IL0373_PANEL_SETTING : Z := 0x00.
Definition _IL0373_POWER_OFF : Z := 0x02.
Definition _IL0373_POWER_ON : Z := 0x04.
Definition _IL0373_DTM1 : Z := 0x10.
Definition _IL0373_DISPLAY_REFRESH : Z := 0x12.
Definition _IL0373_DTM2 : Z := 0x13.
Definition _IL0373_PLL : Z := 0x30.
Definition _IL0373_CDI : Z := 0x50.
Definition _IL0373_RESOLUTION : Z := 0x61.
Definition _IL0373_VCM_DC_SETTING : Z := 0x82.

(** [self.bw_bufsize = int(width * height / 8)], assigned in [__init__]
    and nowhere else. *)
Definition bw_bufsize (self : panel) : Z := int_truediv (width self * height self) 8.

(** [self.red_bufsize = int(width * height / 8)], assigned in [__init__]
    and nowhere else. *)
Definition red_bufsize (self : panel) : Z := int_truediv (width self * height self) 8.

(** [def update(self)] *)
Definition update (self : panel) : M Bus.t unit :=
  command _IL0373_DISPLAY_REFRESH None true ;;
  (if has_busy self then Bus.wait_busy else Bus.sleep 15000) ;;
  d <- Bus.bytearray [0x17] ;;
  command _IL0373_CDI (Some d) true ;;
  d <- Bus.bytearray [0x00] ;;
  command _IL0373_VCM_DC_SETTING (Some d) true ;;
  command _IL0373_POWER_OFF None true ;;
  Bus.sleep 2000.

(** [def power_up(self)] *)
Definition power_up (self : panel) : M Bus.t unit :=
  command _IL0373_POWER_ON None true ;;
  (if has_busy self then Bus.wait_busy else Bus.sleep 3000) ;;
  Bus.sleep 200 ;;
  d <- Bus.bytearray [0xCF] ;;
  command _IL0373_PANEL_SETTING (Some d) true ;;
  d <- Bus.bytearray [0x37] ;;
  command _IL0373_CDI (Some d) true ;;
  d <- Bus.bytearray [0x29] ;;
  command _IL0373_PLL (Some d) true ;;
  let _b1 := Z.land (height self) 0xFF in
  let _b2 := Z.land (Z.shiftr (height self) 8) 0xFF in
  let _b3 := Z.land (width self) 0xFF in
  let _b4 := Z.land (Z.shiftr (width self) 8) 0xFF in
  d <- Bus.bytearray [_b1; _b2; _b3; _b4] ;;
  command _IL0373_RESOLUTION (Some d) true ;;
  d <- Bus.bytearray [0x0A] ;;
  command _IL0373_VCM_DC_SETTING (Some d) true ;;
  ret tt.

(** [self._bw_buffer], [self._red_buffer]: reading an attribute the object
    lacks is an AttributeError. *)
Definition getattr {S A} (attr : option A) : M S A :=
  match attr with
  | Some v => ret v
  | None => raise AttributeError
  end.

Section Display.

(** [Adafruit_MCP_SRAM.SRAM_READ], the sequential-read opcode of the store:
    a constant of the missing [mcp_sram.py]. *)
Variable SRAM_READ : Z.

(** The loop body of a store-backed transfer:
    [outbuf[0] = xfer[0]; self.spi_device.write_readinto(outbuf, xfer)]. *)
Definition shift_one (xfer : list Z) : M Bus.t (list Z) :=
  let outbuf := [nth 0 xfer 0] in
  Bus.write_readinto outbuf.

(** [def display(self)] *)
Definition display (self : panel) : M Bus.t unit :=
  power_up self ;;
  (if has_sram self then
     Bus.try_lock_spin ;;
     Bus.set_value Bus.SRAM_CS false ;;
     b <- Bus.bytearray [SRAM_READ] ;;
     Bus.write b ;;
     b <- Bus.bytearray [0x00; 0x00] ;;
     Bus.write b ;;
     Bus.unlock ;;
     cmd <- command _IL0373_DTM1 None false ;;
     Bus.try_lock_spin ;;
     Bus.set_value Bus.DC true ;;
     xfer <- Bus.bytearray [cmd] ;;
     loop (Z.to_nat (bw_bufsize self)) shift_one xfer ;;
     Bus.set_value Bus.CS true ;;
     Bus.set_value Bus.SRAM_CS true ;;
     Bus.sleep 2 ;;
     Bus.set_value Bus.SRAM_CS false ;;
     b <- Bus.bytearray [SRAM_READ] ;;
     Bus.write b ;;
     b <- Bus.bytearray [Z.shiftr (bw_bufsize self) 8; Z.land (bw_bufsize self) 0xFF] ;;
     Bus.write b ;;
     Bus.unlock ;;
     cmd <- command _IL0373_DTM2 None false ;;
     Bus.try_lock_spin ;;
     Bus.set_value Bus.DC true ;;
     xfer <- Bus.bytearray [cmd] ;;
     loop (Z.to_nat (bw_bufsize self)) shift_one xfer ;;
     Bus.set_value Bus.CS true ;;
     Bus.set_value Bus.SRAM_CS true ;;
     Bus.unlock
   else
     command _IL0373_DTM1 None false ;;
     Bus.try_lock_spin ;;
     Bus.set_value Bus.DC true ;;
     buf <- getattr (_bw_buffer self) ;;
     Bus.write buf ;;
     Bus.set_value Bus.CS true ;;
     Bus.unlock ;;
     Bus.sleep 20 ;;
     command _IL0373_DTM2 None false ;;
     Bus.try_lock_spin ;;
     Bus.set_value Bus.DC true ;;
     buf <- getattr (_red_buffer self) ;;
     Bus.write buf ;;
     Bus.set_value Bus.CS true ;;
     Bus.unlock) ;;
  update self.

End Display.

(** [def pixel(self, x, y, color)] *)
Definition pixel (self : panel) (x y color : Z) : M surface unit :=
  if has_sram self then
    if (x <? 0) || (x >=? width self) || (y <? 0) || (y >=? height self) then ret tt
    else
      let x := if x =? 0 then 1 else x in
      let addr := ((width self - x) * height self + y) / 8 in
      current <- (if color =? RED
                  then on_sram (Adafruit_MCP_SRAM.read8 (addr + bw_bufsize self))
                  else on_sram (Adafruit_MCP_SRAM.read8 addr)) ;;
      let current :=
        if color =? WHITE then Z.lor current (Z.shiftl 1 (7 - y mod 8))
        else if (color =? RED) || (color =? BLACK)
             then Z.land current (Z.lnot (Z.shiftl 1 (7 - y mod 8)))
        else if color =? INVERSE then Z.lxor current (Z.shiftl 1 (7 - y mod 8))
        else current in
      if color =? RED
      then on_sram (Adafruit_MCP_SRAM.write8 (addr + bw_bufsize self) current)
      else on_sram (Adafruit_MCP_SRAM.write8 addr current)
  else Adafruit_EPD.pixel self x y color.

(** [def fill(self, color)] *)
Definition fill (self : panel) (color : Z) : M surface unit :=
  let red_fill := 0xFF in
  let black_fill := 0xFF in
  let black_fill := if color =? BLACK then 0x00 else black_fill in
  let red_fill := if color =? RED then 0x00 else red_fill in
  if has_sram self then
    on_sram (Adafruit_MCP_SRAM.erase 0x00 (bw_bufsize self) black_fill) ;;
    on_sram (Adafruit_MCP_SRAM.erase (bw_bufsize self) (red_bufsize self) red_fill)
  else Adafruit_EPD.fill self color.

Definition _IL0373_POWER_SETTING : Z := 0x01.
Definition _IL0373_BOOSTER_SOFT_START : Z := 0x06.

Module Init.

(** The attributes the two constructors assign. *)
Record t (A : Type) : Type := {
  base : Adafruit_EPD.Init.t A;
  bw_bufsize : Z;
  red_bufsize : Z;
  black_invert : bool;
  red_invert : bool }.

Arguments base {A} t.
Arguments bw_bufsize {A} t.
Arguments red_bufsize {A} t.
Arguments black_invert {A} t.
Arguments red_invert {A} t.

End Init.

(** [def __init__(self, width, height, spi, *, cs_pin, dc_pin, sramcs_pin,
    rst_pin, busy_pin)]: the base constructor is called with
    [(width, height, spi, cs_pin, dc_pin, sramcs_pin, rst_pin, busy_pin)],
    positionally. *)
Definition __init__ {A} (width_ height_ : Z) (spi cs_pin dc_pin sramcs_pin rst_pin busy_pin : A)
  : Init.t A :=
  {| Init.base :=
       Adafruit_EPD.__init__ width_ height_ spi cs_pin dc_pin sramcs_pin rst_pin busy_pin;
     Init.bw_bufsize := int_truediv (width_ * height_) 8;
     Init.red_bufsize := int_truediv (width_ * height_) 8;
     Init.black_invert := true;
     Init.red_invert := true |}.

(** [self._busy.value] in [begin], which does not ask first whether there is
    a busy pin: a [_busy] that is false is None, the case [power_up] and
    [update] provide for, and None has no [value]. *)
Definition busy_value_wait (self : panel) : M Bus.t unit :=
  if has_busy self then Bus.wait_busy else raise AttributeError.

(** [def begin(self, reset=True)] *)
Definition begin (self : panel) (reset : bool) : M Board.t unit :=
  Adafruit_EPD.begin reset ;;
  Board.on_bus (busy_value_wait self) ;;
  d <- Bus.bytearray [0x03; 0x00; 0x2b; 0x2b; 0x09] ;;
  Board.on_bus (command _IL0373_POWER_SETTING (Some d) true) ;;
  d <- Bus.bytearray [0x17; 0x17; 0x17] ;;
  Board.on_bus (command _IL0373_BOOSTER_SOFT_START (Some d) true) ;;
  ret tt.

(** [pixel == (r, g, b)] on RGB pixels. *)
Definition rgb_eqb (p q : Z * Z * Z) : bool :=
  let '(r1, g1, b1) := p in
  let '(r2, g2, b2) := q in
  (r1 =? r2) && (g1 =? g2) && (b1 =? b2).

(** [pix[x, y]]: the pixel, or the exception the access raises. *)
Definition getitem {S A} (r : exn + A) : M S A :=
  match r with
  | inl e => raise e
  | inr v => ret v
  end.

(** [self.sram.read8(...)] and [self.sram.write8(...)] in [image], which
    does not ask first whether there is a store: a [sram] that is false is
    None, which has neither method. *)
Definition on_self_sram {A} (self : panel) (m : M Adafruit_MCP_SRAM.t A) : M surface A :=
  if has_sram self then on_sram m else raise AttributeError.

(** [def image(self, image)] *)
Definition image (self : panel) (img : PIL.image) : M surface unit :=
  if negb (String.eqb (PIL.mode img) PIL.RGB) then raise ValueError
  else
    let '(imwidth, imheight) := PIL.size img in
    if negb (imwidth =? width self) || negb (imheight =? height self) then raise ValueError
    else
      for_range (snd (PIL.size img)) (fun y =>
        for_range (fst (PIL.size img)) (fun x =>
          let x := if x =? 0 then 1 else x in
          pixel_ <- getitem (PIL.pix img x y) ;;
          let addr := int_truediv ((width self - x) * height self + y) 8 in
          let addr := if rgb_eqb pixel_ (0xFF, 0, 0) then addr + bw_bufsize self else addr in
          current <- on_self_sram self (Adafruit_MCP_SRAM.read8 addr) ;;
          let current :=
            if rgb_eqb pixel_ (0xFF, 0, 0) || rgb_eqb pixel_ (0, 0, 0)
            then Z.land current (Z.lnot (Z.shiftl 1 (7 - y mod 8)))
            else Z.lor current (Z.shiftl 1 (7 - y mod 8)) in
          on_self_sram self (Adafruit_MCP_SRAM.write8 addr current))).

End Adafruit_IL0373.

(* ===================================================================== *)
(** * What the proofs observe *)

Import Adafruit_EPD.
Import Adafruit_MCP_SRAM.

(** ** The frame store *)

(** The value [pixel] writes back, from the byte it read. *)
Definition updated (color y current : Z) : Z :=
  if color =? WHITE then Z.lor current (Z.shiftl 1 (7 - y mod 8))
  else if (color =? RED) || (color =? BLACK)
       then Z.land current (Z.lnot (Z.shiftl 1 (7 - y mod 8)))
  else if color =? INVERSE then Z.lxor current (Z.shiftl 1 (7 - y mod 8))
  else current.

(** The byte address of a pixel inside its plane (line 233), for a column
    that is not 0. *)
Definition byte_address (self : panel) (x y : Z) : Z :=
  ((width self - x) * height self + y) / 8.

(** The bit of that byte [pixel] works on (lines 240-244). *)
Definition bit_position (y : Z) : Z := 7 - y mod 8.

(** The address [pixel] reads and writes: column 0 is taken as column 1, and
    RED moves the address up by the size of the black/white plane. *)
Definition target (self : panel) (x y color : Z) : Z :=
  let x := if x =? 0 then 1 else x in
  if color =? RED
  then byte_address self x y + Adafruit_IL0373.bw_bufsize self
  else byte_address self x y.

(** No two distinct coordinates inside the panel, column 0 left out, land on
    the same bit of the same byte. *)
Definition addressing_injective (self : panel) : Prop :=
  forall x1 y1 x2 y2,
    0 < x1 < width self -> 0 <= y1 < height self ->
    0 < x2 < width self -> 0 <= y2 < height self ->
    (x1, y1) <> (x2, y2) ->
    (byte_address self x1 y1, bit_position y1) <>
    (byte_address self x2 y2, bit_position y2).

(** The calls one inner loop of [fill_rect] records: column [a], rows from
    [b] on. *)
Fixpoint column (n : nat) (a b : Z) (color : value) : list (value * value * value) :=
  match n with
  | O => []
  | S n' => (Int a, Int b, color) :: column n' a (b + 1) color
  end.

(** The calls the outer loop records: [n] columns from [a] on. *)
Fixpoint columns (n m : nat) (a b : Z) (color : value) : list (value * value * value) :=
  match n with
  | O => []
  | S n' => column m a b color ++ columns n' m (a + 1) b color
  end.

Definition draws (st : surface) (cells : list (value * value * value)) : surface :=
  {| sram := sram st; drawn := drawn st ++ cells |}.

(** ** Recordings of the bus *)

(** The bus [w] after more events: the lock is [l], [nx] more bytes were
    exchanged, [nw] more waits on the busy line were made. *)
Definition after (w : Bus.t) (l : bool) (nx nw : nat) (evs : list Bus.event) : Bus.t :=
  {| Bus.locked := l;
     Bus.exchanged := Bus.exchanged w + nx;
     Bus.waited := Bus.waited w + nw;
     Bus.miso := Bus.miso w;
     Bus.ready_after := Bus.ready_after w;
     Bus.log := Bus.log w ++ evs |}.

(** The byte shifted in at the [k]-th exchange from [w] on. *)
Definition rx (w : Bus.t) (k : nat) : Z := Bus.miso w (Bus.exchanged w + k) mod 256.

(** The readings of one wait on the busy line. *)
Fixpoint polls (low : nat) : list Bus.event :=
  match low with
  | O => [Bus.BusyRead true]
  | S low' => Bus.BusyRead false :: polls low'
  end.

(** The events of one [command] call that read back [b]. *)
Definition command_events (cmd : Z) (data_ : option (list Z)) (end_ : bool) (b : Z)
  : list Bus.event :=
  [Bus.PinSet Bus.CS true; Bus.PinSet Bus.DC false; Bus.PinSet Bus.CS false;
   Bus.TryLock; Bus.Exchange cmd b] ++
  match data_ with
  | Some dat => [Bus.PinSet Bus.DC true; Bus.BusWrite dat; Bus.PinSet Bus.CS true; Bus.Unlock]
  | None => if end_ then [Bus.PinSet Bus.CS true] else []
  end ++
  [Bus.Unlock].

(** [n] exchanges in a row from the [i]-th on, each sending the byte the one
    before received, the first sending [b]. *)
Fixpoint echo_events (w : Bus.t) (i n : nat) (b : Z) : list Bus.event :=
  match n with
  | O => []
  | S n' => Bus.Exchange b (rx w i) :: echo_events w (S i) n' (rx w i)
  end.

Fixpoint echo_last (w : Bus.t) (i n : nat) (b : Z) : Z :=
  match n with
  | O => b
  | S n' => echo_last w (S i) n' (rx w i)
  end.

(** A run of exchanges that starts by sending [b] and then sends what it
    last received. *)
Fixpoint echo_chain (b : Z) (evs : list Bus.event) : Prop :=
  match evs with
  | [] => True
  | Bus.Exchange out inp :: evs' => out = b /\ echo_chain inp evs'
  | _ :: _ => False
  end.

Definition count_TryLock (evs : list Bus.event) : nat :=
  length (filter (fun e => match e with Bus.TryLock => true | _ => false end) evs).

Definition count_Unlock (evs : list Bus.event) : nat :=
  length (filter (fun e => match e with Bus.Unlock => true | _ => false end) evs).

Definition pin_eqb (p q : Bus.pin) : bool :=
  match p, q with
  | Bus.CS, Bus.CS | Bus.DC, Bus.DC | Bus.SRAM_CS, Bus.SRAM_CS => true
  | _, _ => false
  end.

(** The level of pin [p] after the events, [init] before them. *)
Fixpoint level (p : Bus.pin) (init : bool) (evs : list Bus.event) : bool :=
  match evs with
  | [] => init
  | Bus.PinSet q v :: evs' => level p (if pin_eqb p q then v else init) evs'
  | _ :: evs' => level p init evs'
  end.

(** The bytes the display controller takes as command opcodes: those sent
    while its chip-select [cs] is low (selected) and its data/command line
    [dc] is low (command). *)
Fixpoint controller_commands (cs dc : bool) (evs : list Bus.event) : list Z :=
  match evs with
  | [] => []
  | Bus.PinSet Bus.CS v :: evs' => controller_commands v dc evs'
  | Bus.PinSet Bus.DC v :: evs' => controller_commands cs v evs'
  | Bus.Exchange out _ :: evs' =>
      (if negb cs && negb dc then [out] else []) ++ controller_commands cs dc evs'
  | Bus.BusWrite bytes :: evs' =>
      (if negb cs && negb dc then bytes else []) ++ controller_commands cs dc evs'
  | _ :: evs' => controller_commands cs dc evs'
  end.

(** The events of one wait for the controller: polls of the busy line when
    it is wired, a fixed sleep when not. *)
Definition busy_events (self : panel) (w : Bus.t) (nw : nat) (ms : Z) : list Bus.event :=
  if has_busy self then polls (Bus.ready_after w (Bus.waited w + nw)) else [Bus.Sleep ms].

Definition busy_waits (self : panel) : nat := if has_busy self then 1%nat else 0%nat.

Definition resolution_bytes (self : panel) : list Z :=
  [Z.land (height self) 0xFF; Z.land (Z.shiftr (height self) 8) 0xFF;
   Z.land (width self) 0xFF; Z.land (Z.shiftr (width self) 8) 0xFF].

(** The events of [power_up] from the [nx]-th exchange and [nw]-th wait on. *)
Definition power_up_events (self : panel) (w : Bus.t) (nx nw : nat) : list Bus.event :=
  command_events Adafruit_IL0373._IL0373_POWER_ON None true (rx w nx) ++
  busy_events self w nw 3000 ++
  [Bus.Sleep 200] ++
  command_events Adafruit_IL0373._IL0373_PANEL_SETTING (Some [0xCF]) true (rx w (1 + nx)) ++
  command_events Adafruit_IL0373._IL0373_CDI (Some [0x37]) true (rx w (2 + nx)) ++
  command_events Adafruit_IL0373._IL0373_PLL (Some [0x29]) true (rx w (3 + nx)) ++
  command_events Adafruit_IL0373._IL0373_RESOLUTION (Some (resolution_bytes self)) true
    (rx w (4 + nx)) ++
  command_events Adafruit_IL0373._IL0373_VCM_DC_SETTING (Some [0x0A]) true (rx w (5 + nx)).

(** The events of [update] from the [nx]-th exchange and [nw]-th wait on. *)
Definition update_events (self : panel) (w : Bus.t) (nx nw : nat) : list Bus.event :=
  command_events Adafruit_IL0373._IL0373_DISPLAY_REFRESH None true (rx w nx) ++
  busy_events self w nw 15000 ++
  command_events Adafruit_IL0373._IL0373_CDI (Some [0x17]) true (rx w (1 + nx)) ++
  command_events Adafruit_IL0373._IL0373_VCM_DC_SETTING (Some [0x00]) true (rx w (2 + nx)) ++
  command_events Adafruit_IL0373._IL0373_POWER_OFF None true (rx w (3 + nx)) ++
  [Bus.Sleep 2000].

(** One store-backed transfer pass: the transfer command with the display
    left selected, [n] exchanges that echo the store into the display, both
    chip-selects raised. *)
Definition pass_events (w : Bus.t) (opcode : Z) (nx n : nat) : list Bus.event :=
  command_events opcode None false (rx w nx) ++
  [Bus.TryLock; Bus.PinSet Bus.DC true] ++
  echo_events w (S nx) n (rx w nx) ++
  [Bus.PinSet Bus.CS true; Bus.PinSet Bus.SRAM_CS true].

(** The store is told to stream from the two-byte address [addr]. *)
Definition read_from (SRAM_READ : Z) (addr : list Z) : list Bus.event :=
  [Bus.PinSet Bus.SRAM_CS false; Bus.BusWrite [SRAM_READ]; Bus.BusWrite addr; Bus.Unlock].

(** Everything [display] does on the bus with a store. *)
Definition display_sram_events (SRAM_READ : Z) (self : panel) (w : Bus.t) : list Bus.event :=
  let n := Z.to_nat (Adafruit_IL0373.bw_bufsize self) in
  let bw := Adafruit_IL0373.bw_bufsize self in
  power_up_events self w 0 0 ++
  [Bus.TryLock] ++
  read_from SRAM_READ [0x00; 0x00] ++
  pass_events w Adafruit_IL0373._IL0373_DTM1 6 n ++
  [Bus.Sleep 2] ++
  read_from SRAM_READ [Z.shiftr bw 8; Z.land bw 0xFF] ++
  pass_events w Adafruit_IL0373._IL0373_DTM2 (n + 7) n ++
  [Bus.Unlock] ++
  update_events self w (n + S (n + 7)) (busy_waits self + 0).

(** Everything [display] does on the bus without a store, from the two
    plane buffers. *)
Definition display_buffer_events (self : panel) (w : Bus.t) (bw_buf red_buf : list Z)
  : list Bus.event :=
  power_up_events self w 0 0 ++
  command_events Adafruit_IL0373._IL0373_DTM1 None false (rx w 6) ++
  [Bus.TryLock; Bus.PinSet Bus.DC true; Bus.BusWrite bw_buf; Bus.PinSet Bus.CS true;
   Bus.Unlock; Bus.Sleep 20] ++
  command_events Adafruit_IL0373._IL0373_DTM2 None false (rx w 7) ++
  [Bus.TryLock; Bus.PinSet Bus.DC true; Bus.BusWrite red_buf; Bus.PinSet Bus.CS true;
   Bus.Unlock] ++
  update_events self w 8 (busy_waits self + 0).

(** What the display needs to run to its end: a free bus, a store opcode
    that is a byte and a plane whose size fits the store's two address bytes
    or, without a store, the two plane buffers. *)
Definition display_ready (SRAM_READ : Z) (self : panel) (w : Bus.t) : Prop :=
  Bus.locked w = false /\
  if has_sram self
  then 0 <= SRAM_READ < 256 /\ 0 <= Adafruit_IL0373.bw_bufsize self < 65536
  else _bw_buffer self <> None /\ _red_buffer self <> None.

(** The twelve opcodes of a refresh, in order. *)
Definition refresh_opcodes : list Z :=
  [0x04; 0x00; 0x50; 0x30; 0x61; 0x82; 0x10; 0x13; 0x12; 0x50; 0x82; 0x02].

(** ** Concrete panels, stores and buses *)

(** A 152 x 152 panel with its store and busy line. *)
Definition panel_152 : panel :=
  {| width := 152; height := 152; has_sram := true; has_busy := true;
     _bw_buffer := None; _red_buffer := None |}.

(** A 104 x 212 panel with its store and busy line. *)
Definition panel_104x212 : panel :=
  {| width := 104; height := 212; has_sram := true; has_busy := true;
     _bw_buffer := None; _red_buffer := None |}.

(** A store of zero bytes on which nothing was done yet. *)
Definition blank : surface :=
  {| sram := {| mem := fun _ => 0; ops := [] |}; drawn := [] |}.

(** A bus nobody holds, with a store that answers 0xA5 and a busy line that
    is ready at the third reading. *)
Definition idle : Bus.t :=
  {| Bus.locked := false; Bus.exchanged := 0; Bus.waited := 0;
     Bus.miso := fun _ => 0xA5; Bus.ready_after := fun _ => 2%nat; Bus.log := [] |}.

(* ===================================================================== *)
(** * Further observations *)

(** Every cell of the store holds a byte. *)
Definition bytes_only (s : Adafruit_MCP_SRAM.t) : Prop :=
  forall a, 0 <= mem s a < 256.




(** The bytes the display controller takes as data: those sent while its
    chip-select [cs] is low (selected) and its data/command line [dc] is high
    (data). *)
Fixpoint controller_data (cs dc : bool) (evs : list Bus.event) : list Z :=
  match evs with
  | [] => []
  | Bus.PinSet Bus.CS v :: evs' => controller_data v dc evs'
  | Bus.PinSet Bus.DC v :: evs' => controller_data cs v evs'
  | Bus.Exchange out _ :: evs' =>
      (if negb cs && dc then [out] else []) ++ controller_data cs dc evs'
  | Bus.BusWrite bytes :: evs' =>
      (if negb cs && dc then bytes else []) ++ controller_data cs dc evs'
  | _ :: evs' => controller_data cs dc evs'
  end.

(** A 1024 x 512 panel: a plane of 65536 bytes. *)
Definition panel_1024x512 : panel :=
  {| width := 1024; height := 512; has_sram := true; has_busy := true;
     _bw_buffer := None; _red_buffer := None |}.

(** A panel without a store and without plane buffers. *)
Definition panel_bare : panel :=
  {| width := 152; height := 152; has_sram := false; has_busy := true;
     _bw_buffer := None; _red_buffer := None |}.

(** A bus that somebody holds. *)
Definition held : Bus.t :=
  {| Bus.locked := true; Bus.exchanged := 0; Bus.waited := 0;
     Bus.miso := fun _ => 0xA5; Bus.ready_after := fun _ => 2%nat; Bus.log := [] |}.

(** The events of [begin] of the driver on a panel with a busy line, from a
    free bus [w]. *)
Definition begin_events (self : panel) (reset : bool) (w : Bus.t) : list Bus.event :=
  [Bus.PinSet Bus.CS true; Bus.PinSet Bus.DC false] ++
  (if reset then [Bus.Sleep 100; Bus.Sleep 100] else []) ++
  polls (Bus.ready_after w (Bus.waited w + 0)) ++
  command_events Adafruit_IL0373._IL0373_POWER_SETTING
    (Some [0x03; 0x00; 0x2b; 0x2b; 0x09]) true (rx w 0) ++
  command_events Adafruit_IL0373._IL0373_BOOSTER_SOFT_START
    (Some [0x17; 0x17; 0x17]) true (rx w 1).

(** A board whose bus nobody holds and whose reset pin was never driven. *)
Definition fresh_board : Board.t := {| Board.bus := idle; Board.rst_writes := [] |}.

(** The colour [image] paints for an RGB pixel: pure red is RED, pure black
    is BLACK, everything else is WHITE. *)
Definition colour_of (p : Z * Z * Z) : Z :=
  if Adafruit_IL0373.rgb_eqb p (0xFF, 0, 0) then RED
  else if Adafruit_IL0373.rgb_eqb p (0, 0, 0) then BLACK
  else WHITE.

(** The pixel calls that do what [image] does for the pixels [rgb]. *)
Definition paint_all (self : panel) (rgb : Z -> Z -> Z * Z * Z) : M surface unit :=
  for_range (height self) (fun y =>
    for_range (width self) (fun x =>
      Adafruit_IL0373.pixel self x y (colour_of (rgb (if x =? 0 then 1 else x) y)))).

(** Red, black and white stripes, one column each. *)
Definition stripes (x y : Z) : Z * Z * Z :=
  if x mod 3 =? 0 then (0xFF, 0, 0)
  else if x mod 3 =? 1 then (0, 0, 0)
  else (0xFF, 0xFF, 0xFF).

(** A 152 x 152 RGB image of stripes. *)
Definition striped_image : PIL.image :=
  {| PIL.mode := PIL.RGB; PIL.size := (152, 152);
     PIL.pix := fun x y => inr (stripes x y) |}.

(** The same image with another first column. *)
Definition striped_image_white_edge : PIL.image :=
  {| PIL.mode := PIL.RGB; PIL.size := (152, 152);
     PIL.pix := fun x y => inr (if x =? 0 then (0xFF, 0xFF, 0xFF) else stripes x y) |}.

(** A 104 x 212 RGB image: not the size of a 152 x 152 panel. *)
Definition small_image : PIL.image :=
  {| PIL.mode := PIL.RGB; PIL.size := (104, 212);
     PIL.pix := fun x y => inr (stripes x y) |}.

(** A 152 x 152 RGB image whose pixel access fails with [e] everywhere. *)
Definition unreadable_image (e : exn) : PIL.image :=
  {| PIL.mode := PIL.RGB; PIL.size := (152, 152); PIL.pix := fun _ _ => inl e |}.
(* ===================================================================== *)
(** * Sequencing *)

Lemma bind_Return {S A B} (m : M S A) (k : A -> M S B) (s : S) (a : A) (s' : S) :
  m s = Return a s' -> bind m k s = k a s'.
Proof. intros H. unfold bind. rewrite H. reflexivity. Qed.

Lemma bind_run {S A B} (m : M S A) (k : A -> M S B) (s s1 : S) (a : A) (r : outcome S B) :
  m s = Return a s1 -> k a s1 = r -> bind m k s = r.
Proof. intros H1 H2. unfold bind. rewrite H1. exact H2. Qed.

Lemma bind_Hang {S A B} (m : M S A) (k : A -> M S B) (s s' : S) :
  m s = Hang s' -> bind m k s = Hang s'.
Proof. intros H. unfold bind. rewrite H. reflexivity. Qed.

Lemma bind_Raise {S A B} (m : M S A) (k : A -> M S B) (s : S) (e : exn) (s' : S) :
  m s = Raise e s' -> bind m k s = Raise e s'.
Proof. intros H. unfold bind. rewrite H. reflexivity. Qed.

(* ===================================================================== *)
(** * Pixel addressing *)


Section BitMask.

Variables (current k : Z).
Hypothesis k_nonneg : 0 <= k.

Lemma mask_bit (i : Z) : Z.testbit (Z.shiftl 1 k) i = (i =? k).
Proof.
  rewrite Z.shiftl_1_l, Z.pow2_bits_eqb by exact k_nonneg.
  apply Z.eqb_sym.
Qed.

Lemma set_bit (i : Z) :
  Z.testbit (Z.lor current (Z.shiftl 1 k)) i =
  if i =? k then true else Z.testbit current i.
Proof.
  rewrite Z.lor_spec, mask_bit.
  destruct (i =? k); [apply orb_true_r | apply orb_false_r].
Qed.

Lemma clear_bit (i : Z) :
  0 <= i ->
  Z.testbit (Z.land current (Z.lnot (Z.shiftl 1 k))) i =
  if i =? k then false else Z.testbit current i.
Proof.
  intros Hi.
  rewrite Z.land_spec, Z.lnot_spec, mask_bit by exact Hi.
  destruct (i =? k); [apply andb_false_r | apply andb_true_r].
Qed.

Lemma flip_bit (i : Z) :
  Z.testbit (Z.lxor current (Z.shiftl 1 k)) i =
  if i =? k then negb (Z.testbit current i) else Z.testbit current i.
Proof.
  rewrite Z.lxor_spec, mask_bit.
  destruct (i =? k); [apply xorb_true_r | apply xorb_false_r].
Qed.

Lemma flip_flip : Z.lxor (Z.lxor current (Z.shiftl 1 k)) (Z.shiftl 1 k) = current.
Proof.
  rewrite Z.lxor_assoc, Z.lxor_nilpotent. apply Z.lxor_0_r.
Qed.

End BitMask.

Lemma bit_position_range (y : Z) : 0 <= 7 - y mod 8 <= 7.
Proof.
  pose proof (Z.mod_pos_bound y 8 ltac:(lia)). lia.
Qed.

Lemma in_bounds_check (self : panel) (x y : Z) :
  0 <= x < width self -> 0 <= y < height self ->
  (x <? 0) || (x >=? width self) || (y <? 0) || (y >=? height self) = false.
Proof.
  intros Hx Hy.
  repeat (apply orb_false_intro); lia.
Qed.

Lemma out_of_bounds_check (self : panel) (x y : Z) :
  x < 0 \/ x >= width self \/ y < 0 \/ y >= height self ->
  (x <? 0) || (x >=? width self) || (y <? 0) || (y >=? height self) = true.
Proof.
  intros H.
  destruct (x <? 0) eqn:E1; [reflexivity|].
  destruct (x >=? width self) eqn:E2; [reflexivity|].
  destruct (y <? 0) eqn:E3; [reflexivity|].
  destruct (y >=? height self) eqn:E4; [reflexivity|].
  lia.
Qed.

(** One store-backed [pixel] call is one read and one write of the same
    address. *)
Lemma pixel_sram_step (self : panel) (x y color : Z) (st : surface) :
  has_sram self = true ->
  0 <= x < width self -> 0 <= y < height self ->
  Adafruit_IL0373.pixel self x y color st =
  Return tt
    {| sram :=
         {| Adafruit_MCP_SRAM.mem := fun a =>
              if a =? target self x y color
              then updated color y (Adafruit_MCP_SRAM.mem (sram st) (target self x y color))
              else Adafruit_MCP_SRAM.mem (sram st) a;
            Adafruit_MCP_SRAM.ops :=
              Adafruit_MCP_SRAM.ops (sram st) ++
              [Adafruit_MCP_SRAM.Read8 (target self x y color);
               Adafruit_MCP_SRAM.Write8 (target self x y color)
                 (updated color y (Adafruit_MCP_SRAM.mem (sram st) (target self x y color)))] |};
       drawn := drawn st |}.
Proof.
  intros Hs Hx Hy.
  unfold Adafruit_IL0373.pixel.
  rewrite Hs, (in_bounds_check self x y Hx Hy).
  unfold target, byte_address, updated.
  destruct (color =? RED);
    cbv [bind on_sram Adafruit_MCP_SRAM.read8 Adafruit_MCP_SRAM.write8 sram drawn
         Adafruit_MCP_SRAM.mem Adafruit_MCP_SRAM.ops];
    destruct st as [[m o] d]; rewrite <- app_assoc; reflexivity.
Qed.


(** C1. With a store present and (x, y) inside the panel, [pixel] treats
    column 0 as column 1, reads and writes back the one byte at
    floor(((width - x) * height + y) / 8), moved up by [bw_bufsize] exactly
    when the colour is RED, and changes in it only bit 7 - (y mod 8): WHITE
    sets that bit, BLACK and RED clear it, INVERSE flips it. *)
Theorem pixel_addresses_one_bit (self : panel) (x y color : Z) (st : surface) :
  has_sram self = true ->
  0 <= x < width self -> 0 <= y < height self ->
  color = WHITE \/ color = BLACK \/ color = RED \/ color = INVERSE ->
  let x' := if x =? 0 then 1 else x in
  let addr := ((width self - x') * height self + y) / 8
              + (if color =? RED then Adafruit_IL0373.bw_bufsize self else 0) in
  let old := mem (sram st) addr in
  exists st',
    Adafruit_IL0373.pixel self x y color st = Return tt st' /\
    ops (sram st') = ops (sram st) ++ [Read8 addr; Write8 addr (mem (sram st') addr)] /\
    (forall a, a <> addr -> mem (sram st') a = mem (sram st) a) /\
    (forall i, 0 <= i ->
       Z.testbit (mem (sram st') addr) i =
       if i =? 7 - y mod 8
       then (if color =? WHITE then true
             else if color =? INVERSE then negb (Z.testbit old i)
             else false)
       else Z.testbit old i) /\
    drawn st' = drawn st.
Proof.
  intros Hs Hx Hy Hc x' addr old.
  assert (Ht : target self x y color = addr).
  { unfold target, byte_address, addr, x'. destruct (color =? RED); lia. }
  eexists. split; [apply (pixel_sram_step self x y color st Hs Hx Hy)|].
  rewrite Ht. cbn [sram mem ops drawn].
  rewrite Z.eqb_refl.
  pose proof (bit_position_range y) as Hk.
  repeat split.
  - intros a Ha. apply Z.eqb_neq in Ha. rewrite Ha. reflexivity.
  - intros i Hi. fold old. unfold updated.
    destruct Hc as [-> | [-> | [-> | ->]]]; cbn [Z.eqb WHITE BLACK RED INVERSE orb Pos.eqb].
    + apply set_bit. lia.
    + rewrite clear_bit by lia. destruct (i =? 7 - y mod 8); reflexivity.
    + rewrite clear_bit by lia. destruct (i =? 7 - y mod 8); reflexivity.
    + apply flip_bit. lia.
Qed.

Lemma pixel_addresses_one_bit_witness :
  exists st',
    Adafruit_IL0373.pixel panel_152 0 9 RED blank = Return tt st' /\
    ops (sram st') = [Read8 5758; Write8 5758 (mem (sram st') 5758)].
Proof.
  destruct (pixel_addresses_one_bit panel_152 0 9 RED blank)
    as (st' & Hrun & Hops & _).
  - reflexivity.
  - cbn; lia.
  - cbn; lia.
  - right; right; left; reflexivity.
  - exists st'. split; [exact Hrun | exact Hops].
Defined.

(** C6. With a store present and (x, y) inside the panel, two [pixel] calls
    with INVERSE in a row leave every byte of the store as it was. *)
Theorem pixel_inverse_twice (self : panel) (x y : Z) (st : surface) :
  has_sram self = true ->
  0 <= x < width self -> 0 <= y < height self ->
  exists st1 st2,
    Adafruit_IL0373.pixel self x y INVERSE st = Return tt st1 /\
    Adafruit_IL0373.pixel self x y INVERSE st1 = Return tt st2 /\
    (forall a, mem (sram st2) a = mem (sram st) a) /\
    drawn st2 = drawn st.
Proof.
  intros Hs Hx Hy.
  do 2 eexists.
  split; [apply (pixel_sram_step self x y INVERSE st Hs Hx Hy)|].
  split; [apply (pixel_sram_step self x y INVERSE _ Hs Hx Hy)|].
  cbn [sram mem drawn]. split; [|reflexivity].
  intros a. rewrite Z.eqb_refl.
  destruct (a =? target self x y INVERSE) eqn:Ea; [|reflexivity].
  apply Z.eqb_eq in Ea. subst a.
  unfold updated. cbn [Z.eqb WHITE BLACK RED INVERSE orb Pos.eqb].
  apply flip_flip.
Qed.

Lemma pixel_inverse_twice_witness :
  exists st1 st2,
    Adafruit_IL0373.pixel panel_152 3 20 INVERSE blank = Return tt st1 /\
    Adafruit_IL0373.pixel panel_152 3 20 INVERSE st1 = Return tt st2 /\
    (forall a, mem (sram st2) a = mem (sram blank) a) /\
    drawn st2 = drawn blank.
Proof.
  apply (pixel_inverse_twice panel_152 3 20 blank).
  - reflexivity.
  - cbn; lia.
  - cbn; lia.
Defined.

(** C9. For (x, y) outside the panel, [pixel] returns without an error and
    leaves the store and the drawing surface exactly as they were, with a
    store ([Adafruit_IL0373.pixel], first branch) and without one (the base
    class [pixel] it falls back to). *)
Theorem pixel_out_of_bounds_ignored (self : panel) (x y color : Z) (st : surface) :
  x < 0 \/ x >= width self \/ y < 0 \/ y >= height self ->
  Adafruit_IL0373.pixel self x y color st = Return tt st /\
  Adafruit_EPD.pixel self x y color st = Return tt st.
Proof.
  intros Hout.
  unfold Adafruit_IL0373.pixel, Adafruit_EPD.pixel.
  rewrite (out_of_bounds_check self x y Hout).
  destruct (has_sram self); split; reflexivity.
Qed.

Lemma pixel_out_of_bounds_ignored_witness :
  Adafruit_IL0373.pixel panel_152 152 0 BLACK blank = Return tt blank /\
  Adafruit_EPD.pixel panel_152 152 0 BLACK blank = Return tt blank.
Proof.
  apply (pixel_out_of_bounds_ignored panel_152 152 0 BLACK blank).
  right; left. cbn; lia.
Defined.

(** C10. With a store present, (x, y) inside the panel and a colour that is
    none of WHITE, BLACK, RED, INVERSE, [pixel] reads the addressed byte of
    the black/white plane and writes the same value back: no byte of the
    store changes. *)
Theorem pixel_other_colour_rewrites_same_byte
    (self : panel) (x y color : Z) (st : surface) :
  has_sram self = true ->
  0 <= x < width self -> 0 <= y < height self ->
  color <> WHITE -> color <> BLACK -> color <> RED -> color <> INVERSE ->
  let x' := if x =? 0 then 1 else x in
  let addr := ((width self - x') * height self + y) / 8 in
  exists st',
    Adafruit_IL0373.pixel self x y color st = Return tt st' /\
    ops (sram st') = ops (sram st) ++ [Read8 addr; Write8 addr (mem (sram st) addr)] /\
    (forall a, mem (sram st') a = mem (sram st) a) /\
    drawn st' = drawn st.
Proof.
  intros Hs Hx Hy Hw Hb Hr Hi x' addr.
  apply Z.eqb_neq in Hw, Hb, Hr, Hi.
  assert (Ht : target self x y color = addr).
  { unfold target, byte_address. rewrite Hr. reflexivity. }
  assert (Hu : forall c, updated color y c = c).
  { intros c. unfold updated. rewrite Hw, Hr, Hb, Hi. reflexivity. }
  eexists. split; [apply (pixel_sram_step self x y color st Hs Hx Hy)|].
  rewrite Ht, Hu. cbn [sram mem ops drawn].
  repeat split.
  intros a. destruct (a =? addr) eqn:Ea; [|reflexivity].
  apply Z.eqb_eq in Ea. subst a. reflexivity.
Qed.

Lemma pixel_other_colour_rewrites_same_byte_witness :
  exists st',
    Adafruit_IL0373.pixel panel_152 0 9 DARK blank = Return tt st' /\
    ops (sram st') = [Read8 2870; Write8 2870 0] /\
    (forall a, mem (sram st') a = mem (sram blank) a) /\
    drawn st' = drawn blank.
Proof.
  apply (pixel_other_colour_rewrites_same_byte panel_152 0 9 DARK blank);
    solve [reflexivity | cbn; lia | discriminate].
Defined.

Lemma target_byte_address (self : panel) (x y color : Z) :
  x <> 0 ->
  target self x y color =
  byte_address self x y + (if color =? RED then Adafruit_IL0373.bw_bufsize self else 0).
Proof.
  intros Hx. apply Z.eqb_neq in Hx.
  unfold target. rewrite Hx.
  destruct (color =? RED); lia.
Qed.

Lemma linear_index_unique (w h x1 y1 x2 y2 : Z) :
  0 <= y1 < h -> 0 <= y2 < h ->
  (w - x1) * h + y1 = (w - x2) * h + y2 ->
  x1 = x2 /\ y1 = y2.
Proof.
  intros H1 H2 E.
  assert (x1 = x2) by nia.
  subst x2. split; [reflexivity | lia].
Qed.

(** C4, amended. When the height is a multiple of 8, the map from (x, y) to
    (byte address, bit position) is injective on the coordinates inside the
    panel with x <> 0. *)
Theorem addressing_injective_when_height_multiple_of_8 (self : panel) :
  height self mod 8 = 0 ->
  addressing_injective self.
Proof.
  intros Hh x1 y1 x2 y2 Hx1 Hy1 Hx2 Hy2 Hne E.
  apply Hne. clear Hne.
  injection E as Ea Eb.
  unfold byte_address in Ea. unfold bit_position in Eb.
  apply Z.mod_divide in Hh; [|lia]. destruct Hh as [q Hq].
  assert (Hm : forall x y, ((width self - x) * height self + y) mod 8 = y mod 8).
  { intros x y. rewrite Hq.
    replace ((width self - x) * (q * 8) + y) with (y + (width self - x) * q * 8) by ring.
    apply Z.mod_add. lia. }
  assert (En : (width self - x1) * height self + y1 = (width self - x2) * height self + y2).
  { rewrite (Z.div_mod ((width self - x1) * height self + y1) 8) by lia.
    rewrite (Z.div_mod ((width self - x2) * height self + y2) 8) by lia.
    rewrite Ea, !Hm. lia. }
  destruct (linear_index_unique _ _ _ _ _ _ Hy1 Hy2 En) as [-> ->].
  reflexivity.
Qed.

Lemma addressing_injective_when_height_multiple_of_8_witness :
  addressing_injective panel_152.
Proof.
  apply (addressing_injective_when_height_multiple_of_8 panel_152).
  reflexivity.
Defined.

(** C4 as stated fails: on a 104 x 212 panel, (1, 0) and (2, 208) are both
    bit 7 of byte 2729. *)
Lemma addressing_not_injective_104x212 : ~ addressing_injective panel_104x212.
Proof.
  intros Hinj.
  apply (Hinj 1 0 2 208); cbn; try lia.
  - discriminate.
  - reflexivity.
Qed.

(** The collision seen through the code: clearing (2, 208) undoes the bit
    that was set for (1, 0). *)
Lemma collision_observed_104x212 :
  exists st1 st2,
    Adafruit_IL0373.pixel panel_104x212 1 0 WHITE blank = Return tt st1 /\
    Adafruit_IL0373.pixel panel_104x212 2 208 BLACK st1 = Return tt st2 /\
    Z.testbit (mem (sram st1) 2729) 7 = true /\
    Z.testbit (mem (sram st2) 2729) 7 = false.
Proof.
  do 2 eexists.
  split; [apply pixel_sram_step; [reflexivity | cbn; lia | cbn; lia]|].
  split; [apply pixel_sram_step; [reflexivity | cbn; lia | cbn; lia]|].
  split; vm_compute; reflexivity.
Qed.

(* ===================================================================== *)
(** * Bulk fill *)

(** A store-backed [fill] is two bulk erases and nothing else. *)
Lemma fill_sram_step (self : panel) (color : Z) (st : surface) :
  has_sram self = true ->
  let bw := Adafruit_IL0373.bw_bufsize self in
  let red := Adafruit_IL0373.red_bufsize self in
  let black_fill := if color =? BLACK then 0 else 255 in
  let red_fill := if color =? RED then 0 else 255 in
  exists st',
    Adafruit_IL0373.fill self color st = Return tt st' /\
    ops (sram st') = ops (sram st) ++ [Erase 0 bw black_fill; Erase bw red red_fill] /\
    (forall a, 0 <= a < bw -> mem (sram st') a = black_fill) /\
    (forall a, bw <= a < bw + red -> mem (sram st') a = red_fill) /\
    drawn st' = drawn st.
Proof.
  intros Hs bw red black_fill red_fill.
  unfold Adafruit_IL0373.fill. rewrite Hs.
  fold bw red black_fill red_fill.
  cbv [bind on_sram erase sram drawn mem ops].
  eexists. split; [reflexivity|].
  cbn [sram mem ops drawn].
  rewrite <- app_assoc.
  repeat split.
  - intros a Ha.
    replace ((bw <=? a) && (a <? bw + red)) with false
      by (symmetry; apply andb_false_intro1; lia).
    replace ((0 <=? a) && (a <? 0 + bw)) with true
      by (symmetry; apply andb_true_intro; split; lia).
    reflexivity.
  - intros a Ha.
    replace ((bw <=? a) && (a <? bw + red)) with true
      by (symmetry; apply andb_true_intro; split; lia).
    reflexivity.
Qed.

(** C5. With a store present, [fill] is exactly two bulk erases, one per
    plane, and no per-pixel access: BLACK leaves every byte of the
    black/white plane 0x00 and of the red plane 0xFF; WHITE leaves both
    planes 0xFF; RED leaves the red plane 0x00 and the black/white plane
    0xFF. *)
Theorem fill_sets_both_planes (self : panel) (st : surface) :
  has_sram self = true ->
  let bw := Adafruit_IL0373.bw_bufsize self in
  let red := Adafruit_IL0373.red_bufsize self in
  (exists st',
     Adafruit_IL0373.fill self BLACK st = Return tt st' /\
     ops (sram st') = ops (sram st) ++ [Erase 0 bw 0x00; Erase bw red 0xFF] /\
     (forall a, 0 <= a < bw -> mem (sram st') a = 0x00) /\
     (forall a, bw <= a < bw + red -> mem (sram st') a = 0xFF)) /\
  (exists st',
     Adafruit_IL0373.fill self WHITE st = Return tt st' /\
     ops (sram st') = ops (sram st) ++ [Erase 0 bw 0xFF; Erase bw red 0xFF] /\
     (forall a, 0 <= a < bw -> mem (sram st') a = 0xFF) /\
     (forall a, bw <= a < bw + red -> mem (sram st') a = 0xFF)) /\
  (exists st',
     Adafruit_IL0373.fill self RED st = Return tt st' /\
     ops (sram st') = ops (sram st) ++ [Erase 0 bw 0xFF; Erase bw red 0x00] /\
     (forall a, 0 <= a < bw -> mem (sram st') a = 0xFF) /\
     (forall a, bw <= a < bw + red -> mem (sram st') a = 0x00)).
Proof.
  intros Hs bw red.
  repeat split.
  - destruct (fill_sram_step self BLACK st Hs) as (st' & H1 & H2 & H3 & H4 & _).
    exists st'. auto.
  - destruct (fill_sram_step self WHITE st Hs) as (st' & H1 & H2 & H3 & H4 & _).
    exists st'. auto.
  - destruct (fill_sram_step self RED st Hs) as (st' & H1 & H2 & H3 & H4 & _).
    exists st'. auto.
Qed.

Lemma fill_sets_both_planes_witness :
  exists st',
    Adafruit_IL0373.fill panel_152 BLACK blank = Return tt st' /\
    ops (sram st') = [Erase 0 2888 0; Erase 2888 2888 255] /\
    (forall a, 0 <= a < 2888 -> mem (sram st') a = 0) /\
    (forall a, 2888 <= a < 2888 + 2888 -> mem (sram st') a = 255).
Proof.
  destruct (fill_sets_both_planes panel_152 blank) as [Hblack _].
  - reflexivity.
  - exact Hblack.
Defined.

(* ===================================================================== *)
(** * The drawing surface of the base class *)

Lemma draws_nil (st : surface) : draws st [] = st.
Proof. destruct st. unfold draws. cbn. rewrite app_nil_r. reflexivity. Qed.

Lemma draws_draws (st : surface) (l1 l2 : list (value * value * value)) :
  draws (draws st l1) l2 = draws st (l1 ++ l2).
Proof. unfold draws. cbn. rewrite app_assoc. reflexivity. Qed.

Lemma inner_loop_draws (n : nat) (a y i : Z) (color : value) (st : surface) :
  for_from n i (fun _y => draw_pixel [Int a; Int (y + _y); color]) st =
  Return tt (draws st (column n a (y + i) color)).
Proof.
  revert i st. induction n as [|n IH]; intros i st.
  - cbn. rewrite draws_nil. reflexivity.
  - cbn [for_from column].
    rewrite (bind_Return _ _ st tt (draws st [(Int a, Int (y + i), color)]))
      by reflexivity.
    rewrite IH, draws_draws, Z.add_assoc. reflexivity.
Qed.

Lemma outer_loop_draws (n m : nat) (x y i : Z) (color : value) (st : surface) :
  for_from n i (fun _x =>
    for_from m 0 (fun _y => draw_pixel [Int (x + _x); Int (y + _y); color])) st =
  Return tt (draws st (columns n m (x + i) y color)).
Proof.
  revert i st. induction n as [|n IH]; intros i st.
  - cbn. rewrite draws_nil. reflexivity.
  - cbn [for_from columns].
    rewrite (bind_Return _ _ st tt (draws st (column m (x + i) (y + 0) color)))
      by apply inner_loop_draws.
    rewrite IH, draws_draws, Z.add_0_r, Z.add_assoc.
    reflexivity.
Qed.

Lemma in_column (n : nat) (a b : Z) (color : value) (p q c : value) :
  In (p, q, c) (column n a b color) <->
  exists j, p = Int a /\ q = Int j /\ c = color /\ b <= j < b + Z.of_nat n.
Proof.
  revert b. induction n as [|n IH]; intros b; cbn [column In].
  - split; [tauto | intros (j & _ & _ & _ & Hj); lia].
  - rewrite IH. split.
    + intros [E | (j & -> & -> & -> & Hj)].
      * injection E as <- <- <-. exists b. repeat split; lia.
      * exists j. repeat split; lia.
    + intros (j & -> & -> & -> & Hj).
      destruct (Z.eq_dec j b) as [-> | Hne]; [left; reflexivity|].
      right. exists j. repeat split; lia.
Qed.

Lemma in_columns (n m : nat) (a b : Z) (color : value) (p q c : value) :
  In (p, q, c) (columns n m a b color) <->
  exists i j, p = Int i /\ q = Int j /\ c = color /\
              a <= i < a + Z.of_nat n /\ b <= j < b + Z.of_nat m.
Proof.
  revert a. induction n as [|n IH]; intros a; cbn [columns In].
  - split; [tauto | intros (i & j & _ & _ & _ & Hi & _); lia].
  - rewrite in_app_iff, in_column, IH. split.
    + intros [(j & -> & -> & -> & Hj) | (i & j & -> & -> & -> & Hi & Hj)].
      * exists a, j. repeat split; lia.
      * exists i, j. repeat split; lia.
    + intros (i & j & -> & -> & -> & Hi & Hj).
      destruct (Z.eq_dec i a) as [-> | Hne].
      * left. exists j. repeat split; lia.
      * right. exists i, j. repeat split; lia.
Qed.

Lemma NoDup_column (n : nat) (a b : Z) (color : value) : NoDup (column n a b color).
Proof.
  revert b. induction n as [|n IH]; intros b; cbn [column]; constructor.
  - rewrite in_column. intros (j & _ & E & _ & Hj).
    injection E as ->. lia.
  - apply IH.
Qed.

Lemma NoDup_columns (n m : nat) (a b : Z) (color : value) :
  NoDup (columns n m a b color).
Proof.
  revert a. induction n as [|n IH]; intros a; cbn [columns].
  - constructor.
  - apply NoDup_app.
    + apply NoDup_column.
    + apply IH.
    + intros [[p q] c] H1 H2.
      apply in_column in H1. apply in_columns in H2.
      destruct H1 as (j & -> & _), H2 as (i & j' & E & _ & _ & Hi & _).
      injection E as ->. lia.
Qed.

(** [fill_rect] called as written at lines 109, 112, 115 and 116 records one
    [draw_pixel(a, b, color)] for every cell (a, b) of the rectangle that lies
    inside the panel, and nothing else. *)
Lemma fill_rect_draws_each_cell_once
    (self : panel) (x y w h : Z) (color : value) (st : surface) :
  exists cells,
    fill_rect self [Int x; Int y; Int w; Int h; color] st = Return tt (draws st cells) /\
    NoDup cells /\
    forall p q c,
      In (p, q, c) cells <->
      exists a b, p = Int a /\ q = Int b /\ c = color /\
                  x <= a < x + w /\ y <= b < y + h /\
                  0 <= a < width self /\ 0 <= b < height self.
Proof.
  cbn [fill_rect]. unfold fill_rect_body.
  destruct ((w <? 1) || (h <? 1) || (x + w <=? 0)) eqn:E1.
  { exists []. rewrite draws_nil. split; [reflexivity|]. split; [constructor|].
    intros p q c. split; [intros []|].
    intros (a & b & _ & _ & _ & Ha & Hb & Ha' & Hb').
    apply orb_true_iff in E1. destruct E1 as [E1|E1]; [|lia].
    apply orb_true_iff in E1. destruct E1 as [E1|E1]; lia. }
  destruct ((y + h <=? 0) || (y >=? height self) || (x >=? width self)) eqn:E2.
  { exists []. rewrite draws_nil. split; [reflexivity|]. split; [constructor|].
    intros p q c. split; [intros []|].
    intros (a & b & _ & _ & _ & Ha & Hb & Ha' & Hb').
    apply orb_true_iff in E2. destruct E2 as [E2|E2]; [|lia].
    apply orb_true_iff in E2. destruct E2 as [E2|E2]; lia. }
  eexists. cbv zeta. unfold for_range at 1.
  split; [unfold for_range; apply (outer_loop_draws _ _ (Z.max x 0) (Z.max y 0) 0)|].
  split; [apply NoDup_columns|].
  intros p q c. rewrite in_columns.
  split.
  - intros (a & b & -> & -> & -> & Ha & Hb). exists a, b. repeat split; lia.
  - intros (a & b & -> & -> & -> & Ha & Hb & Ha' & Hb').
    exists a, b. repeat split; lia.
Qed.

(** [hline] and [vline] are [fill_rect] called correctly: they too record
    one call per covered cell inside the panel. *)
Lemma hline_draws_each_cell_once (self : panel) (x y w color : Z) (st : surface) :
  exists cells,
    hline self x y w color st = Return tt (draws st cells) /\
    NoDup cells /\
    forall p q c,
      In (p, q, c) cells <->
      exists a, p = Int a /\ q = Int y /\ c = Int color /\
                x <= a < x + w /\ 0 <= a < width self /\ 0 <= y < height self.
Proof.
  destruct (fill_rect_draws_each_cell_once self x y w 1 (Int color) st)
    as (cells & Hrun & Hnd & Hin).
  exists cells. split; [exact Hrun|]. split; [exact Hnd|].
  intros p q c. rewrite Hin. split.
  - intros (a & b & -> & -> & -> & Ha & Hb & Ha' & Hb').
    assert (b = y) by lia. subst b. exists a. repeat split; lia.
  - intros (a & -> & -> & -> & Ha & Ha' & Hy).
    exists a, y. repeat split; lia.
Qed.

Lemma vline_draws_each_cell_once (self : panel) (x y h color : Z) (st : surface) :
  exists cells,
    vline self x y h color st = Return tt (draws st cells) /\
    NoDup cells /\
    forall p q c,
      In (p, q, c) cells <->
      exists b, p = Int x /\ q = Int b /\ c = Int color /\
                y <= b < y + h /\ 0 <= x < width self /\ 0 <= b < height self.
Proof.
  destruct (fill_rect_draws_each_cell_once self x y 1 h (Int color) st)
    as (cells & Hrun & Hnd & Hin).
  exists cells. split; [exact Hrun|]. split; [exact Hnd|].
  intros p q c. rewrite Hin. split.
  - intros (a & b & -> & -> & -> & Ha & Hb & Ha' & Hb').
    assert (a = x) by lia. subst a. exists b. repeat split; lia.
  - intros (b & -> & -> & -> & Hb & Hx & Hb').
    exists x, b. repeat split; lia.
Qed.

(** C8 fails on the code. [fill], [pixel] and [rect] of the base class hand
    the receiver once more as first positional argument (lines 81, 105, 117,
    118), so the call they make is a TypeError: [fill] draws nothing for any
    colour, [pixel] draws nothing for any coordinate inside the panel, and
    [rect] stops after its two horizontal edges. *)
Theorem base_fill_pixel_rect_raise_TypeError
    (self : panel) (x y w h color : Z) (st : surface) :
  fill self color st = Raise TypeError st /\
  pixel self x y color st =
    (if (x <? 0) || (x >=? width self) || (y <? 0) || (y >=? height self)
     then Return tt st else Raise TypeError st) /\
  exists cells, rect self x y w h color st = Raise TypeError (draws st cells).
Proof.
  split; [reflexivity|]. split.
  - unfold pixel.
    destruct ((x <? 0) || (x >=? width self) || (y <? 0) || (y >=? height self));
      reflexivity.
  - destruct (fill_rect_draws_each_cell_once self x y w 1 (Int color) st)
      as (top & Htop & _).
    destruct (fill_rect_draws_each_cell_once self x (y + h) w 1 (Int color) (draws st top))
      as (bottom & Hbottom & _).
    exists (top ++ bottom).
    unfold rect.
    eapply bind_run; [exact Htop|].
    eapply bind_run; [exact Hbottom|].
    rewrite draws_draws. reflexivity.
Qed.

(* ===================================================================== *)
(** * The bus transport *)

Lemma after_init (w : Bus.t) : after w (Bus.locked w) 0 0 [] = w.
Proof.
  destruct w. unfold after. cbn.
  rewrite !Nat.add_0_r, app_nil_r. reflexivity.
Qed.

Section Primitives.

Variables (w : Bus.t) (l : bool) (nx nw : nat) (evs : list Bus.event).

Lemma emit_run (e : Bus.event) :
  Bus.emit e (after w l nx nw evs) = Return tt (after w l nx nw (evs ++ [e])).
Proof. unfold Bus.emit, after. cbn. rewrite app_assoc. reflexivity. Qed.

Lemma set_value_run (p : Bus.pin) (v : bool) :
  Bus.set_value p v (after w l nx nw evs) =
  Return tt (after w l nx nw (evs ++ [Bus.PinSet p v])).
Proof. apply emit_run. Qed.

Lemma write_run (buf : list Z) :
  Bus.write buf (after w l nx nw evs) =
  Return tt (after w l nx nw (evs ++ [Bus.BusWrite buf])).
Proof. apply emit_run. Qed.

Lemma sleep_run (ms : Z) :
  Bus.sleep ms (after w l nx nw evs) =
  Return tt (after w l nx nw (evs ++ [Bus.Sleep ms])).
Proof. apply emit_run. Qed.

Lemma unlock_run :
  Bus.unlock (after w l nx nw evs) =
  Return tt (after w false nx nw (evs ++ [Bus.Unlock])).
Proof. unfold Bus.unlock, after. cbn. rewrite app_assoc. reflexivity. Qed.

Lemma exchange_run (out : Z) :
  Bus.exchange out (after w l nx nw evs) =
  Return (rx w nx) (after w l (S nx) nw (evs ++ [Bus.Exchange out (rx w nx)])).
Proof.
  unfold Bus.exchange, after, rx. cbn.
  rewrite app_assoc, Nat.add_succ_r. reflexivity.
Qed.

Lemma write_readinto_run (out : Z) :
  Bus.write_readinto [out] (after w l nx nw evs) =
  Return [rx w nx] (after w l (S nx) nw (evs ++ [Bus.Exchange out (rx w nx)])).
Proof.
  cbn [Bus.write_readinto].
  eapply bind_run; [apply exchange_run|]. reflexivity.
Qed.

End Primitives.

Lemma poll_run (w : Bus.t) (l : bool) (nx nw : nat) (n : nat) (evs : list Bus.event) :
  Bus.poll n (after w l nx nw evs) = Return tt (after w l nx nw (evs ++ polls n)).
Proof.
  revert evs. induction n as [|n IH]; intros evs; cbn [Bus.poll polls].
  - apply emit_run.
  - eapply bind_run; [apply emit_run|].
    rewrite IH, <- app_assoc. reflexivity.
Qed.

Lemma wait_busy_run (w : Bus.t) (l : bool) (nx nw : nat) (evs : list Bus.event) :
  Bus.wait_busy (after w l nx nw evs) =
  Return tt (after w l nx (S nw)
               (evs ++ polls (Bus.ready_after w (Bus.waited w + nw)))).
Proof.
  unfold Bus.wait_busy.
  cbn [after Bus.locked Bus.exchanged Bus.waited Bus.miso Bus.ready_after Bus.log].
  rewrite <- Nat.add_succ_r.
  apply (poll_run w l nx (S nw)).
Qed.

Lemma try_lock_run (w : Bus.t) (nx nw : nat) (evs : list Bus.event) :
  Bus.try_lock_spin (after w false nx nw evs) =
  Return tt (after w true nx nw (evs ++ [Bus.TryLock])).
Proof. unfold Bus.try_lock_spin, after. cbn. rewrite app_assoc. reflexivity. Qed.

Lemma try_lock_held (w : Bus.t) (nx nw : nat) (evs : list Bus.event) :
  Bus.try_lock_spin (after w true nx nw evs) = Hang (after w true nx nw evs).
Proof. reflexivity. Qed.

Lemma bytearray_run {S} (l : list Z) (s : S) :
  forallb (fun b => (0 <=? b) && (b <? 256)) l = true ->
  Bus.bytearray l s = Return l s.
Proof. intros H. unfold Bus.bytearray. rewrite H. reflexivity. Qed.

Lemma byte_check (b : Z) : 0 <= b < 256 -> (0 <=? b) && (b <? 256) = true.
Proof. intros H. apply andb_true_intro. split; lia. Qed.

Lemma rx_byte (w : Bus.t) (k : nat) : 0 <= rx w k < 256.
Proof. unfold rx. apply Z.mod_pos_bound. lia. Qed.

Lemma land_255_byte (n : Z) : 0 <= Z.land n 255 < 256.
Proof.
  change 255 with (Z.ones 8). rewrite Z.land_ones by lia.
  apply Z.mod_pos_bound. reflexivity.
Qed.

(** One [command] call on a free bus. *)
Lemma command_run (cmd : Z) (data_ : option (list Z)) (end_ : bool)
    (w : Bus.t) (nx nw : nat) (evs : list Bus.event) :
  0 <= cmd < 256 ->
  command cmd data_ end_ (after w false nx nw evs) =
  Return (rx w nx)
    (after w false (S nx) nw (evs ++ command_events cmd data_ end_ (rx w nx))).
Proof.
  intros Hcmd. unfold command.
  do 3 (eapply bind_run; [apply set_value_run|]).
  eapply bind_run; [apply try_lock_run|].
  eapply bind_run; [apply bytearray_run; cbn; rewrite (byte_check cmd Hcmd); reflexivity|].
  eapply bind_run; [apply write_readinto_run|].
  unfold command_events.
  destruct data_ as [dat|]; [|destruct end_].
  - unfold data.
    eapply bind_run.
    { eapply bind_run; [apply set_value_run|].
      eapply bind_run; [apply write_run|].
      eapply bind_run; [apply set_value_run|].
      apply unlock_run. }
    eapply bind_run; [apply unlock_run|].
    cbn [ret nth]. rewrite <- !app_assoc. reflexivity.
  - eapply bind_run; [apply set_value_run|].
    eapply bind_run; [apply unlock_run|].
    cbn [ret nth]. rewrite <- !app_assoc. reflexivity.
  - eapply bind_run; [reflexivity|].
    eapply bind_run; [apply unlock_run|].
    cbn [ret nth]. rewrite <- !app_assoc. reflexivity.
Qed.

Lemma free_bus (w : Bus.t) : Bus.locked w = false -> w = after w false 0 0 [].
Proof. intros H. rewrite <- H. symmetry. apply after_init. Qed.

Lemma log_after (w : Bus.t) (l : bool) (nx nw : nat) (evs : list Bus.event) :
  Bus.log (after w l nx nw evs) = Bus.log w ++ evs.
Proof. reflexivity. Qed.

(** The sibling path: a [command] call without a payload takes the lock once
    and releases it once. *)
Lemma command_without_data_balanced (cmd : Z) (end_ : bool) (w : Bus.t) :
  Bus.locked w = false -> 0 <= cmd < 256 ->
  exists w' evs,
    command cmd None end_ w = Return (rx w 0) w' /\
    Bus.log w' = Bus.log w ++ evs /\
    count_TryLock evs = 1%nat /\ count_Unlock evs = 1%nat.
Proof.
  intros Hfree Hcmd.
  pose proof (command_run cmd None end_ w 0 0 [] Hcmd) as Hrun.
  rewrite <- (free_bus w Hfree) in Hrun.
  do 2 eexists. split; [exact Hrun|].
  split; [reflexivity|].
  destruct end_; split; reflexivity.
Qed.

(** C7 fails on the code. A [command] call with a payload takes the bus lock
    once and releases it twice: [data] unlocks (line 74) and [command] unlocks
    again (line 66). *)
Theorem command_with_data_unlocks_twice
    (cmd : Z) (dat : list Z) (end_ : bool) (w : Bus.t) :
  Bus.locked w = false -> 0 <= cmd < 256 ->
  exists w',
    command cmd (Some dat) end_ w = Return (rx w 0) w' /\
    Bus.log w' =
      Bus.log w ++
      [Bus.PinSet Bus.CS true; Bus.PinSet Bus.DC false; Bus.PinSet Bus.CS false;
       Bus.TryLock; Bus.Exchange cmd (rx w 0);
       Bus.PinSet Bus.DC true; Bus.BusWrite dat; Bus.PinSet Bus.CS true;
       Bus.Unlock; Bus.Unlock] /\
    count_TryLock (command_events cmd (Some dat) end_ (rx w 0)) = 1%nat /\
    count_Unlock (command_events cmd (Some dat) end_ (rx w 0)) = 2%nat.
Proof.
  intros Hfree Hcmd.
  pose proof (command_run cmd (Some dat) end_ w 0 0 [] Hcmd) as Hrun.
  rewrite <- (free_bus w Hfree) in Hrun.
  eexists. split; [exact Hrun|].
  repeat split.
Qed.

Lemma command_with_data_unlocks_twice_witness :
  exists w',
    command 0x00 (Some [0xCF]) true idle = Return 0xA5 w' /\
    Bus.log w' =
      [Bus.PinSet Bus.CS true; Bus.PinSet Bus.DC false; Bus.PinSet Bus.CS false;
       Bus.TryLock; Bus.Exchange 0x00 0xA5;
       Bus.PinSet Bus.DC true; Bus.BusWrite [0xCF]; Bus.PinSet Bus.CS true;
       Bus.Unlock; Bus.Unlock].
Proof.
  destruct (command_with_data_unlocks_twice 0x00 [0xCF] true idle)
    as (w' & Hrun & Hlog & _).
  - reflexivity.
  - lia.
  - exists w'. split; [exact Hrun | exact Hlog].
Defined.

(* ===================================================================== *)
(** * The refresh sequence *)

Create HintDb opcodes.
#[local] Hint Unfold
  Adafruit_IL0373._IL0373_PANEL_SETTING Adafruit_IL0373._IL0373_POWER_OFF
  Adafruit_IL0373._IL0373_POWER_ON Adafruit_IL0373._IL0373_DTM1
  Adafruit_IL0373._IL0373_DISPLAY_REFRESH Adafruit_IL0373._IL0373_DTM2
  Adafruit_IL0373._IL0373_PLL Adafruit_IL0373._IL0373_CDI
  Adafruit_IL0373._IL0373_RESOLUTION Adafruit_IL0373._IL0373_VCM_DC_SETTING : opcodes.

Ltac opcode_is_byte := autounfold with opcodes; lia.

Ltac step :=
  eapply bind_run;
  [ first [ apply set_value_run | apply write_run | apply sleep_run
          | apply unlock_run | apply try_lock_run | apply wait_busy_run
          | apply command_run; opcode_is_byte
          | apply bytearray_run; reflexivity ]
  | cbv beta ].

Lemma resolution_bytes_ok (self : panel) :
  forallb (fun b => (0 <=? b) && (b <? 256)) (resolution_bytes self) = true.
Proof.
  unfold resolution_bytes. cbn [forallb].
  rewrite !byte_check by apply land_255_byte. reflexivity.
Qed.

Lemma power_up_run (self : panel) (w : Bus.t) (nx nw : nat) (evs : list Bus.event) :
  Adafruit_IL0373.power_up self (after w false nx nw evs) =
  Return tt (after w false (6 + nx) (busy_waits self + nw)
               (evs ++ power_up_events self w nx nw)).
Proof.
  unfold Adafruit_IL0373.power_up, power_up_events, busy_events, busy_waits.
  destruct (has_busy self).
  - do 9 step.
    eapply bind_run; [apply bytearray_run, resolution_bytes_ok|cbv beta].
    do 3 step.
    unfold ret. rewrite <- !app_assoc. reflexivity.
  - do 9 step.
    eapply bind_run; [apply bytearray_run, resolution_bytes_ok|cbv beta].
    do 3 step.
    unfold ret. rewrite <- !app_assoc. reflexivity.
Qed.

Lemma update_run (self : panel) (w : Bus.t) (nx nw : nat) (evs : list Bus.event) :
  Adafruit_IL0373.update self (after w false nx nw evs) =
  Return tt (after w false (4 + nx) (busy_waits self + nw)
               (evs ++ update_events self w nx nw)).
Proof.
  unfold Adafruit_IL0373.update, update_events, busy_events, busy_waits.
  destruct (has_busy self).
  - do 7 step. rewrite sleep_run, <- !app_assoc. reflexivity.
  - do 7 step. rewrite sleep_run, <- !app_assoc. reflexivity.
Qed.

(** The transfer loop: [n] exchanges, each sending what the one before
    received. *)
Lemma echo_loop_run (n : nat) (b : Z) (w : Bus.t) (l : bool) (i nw : nat)
    (evs : list Bus.event) :
  loop n Adafruit_IL0373.shift_one [b] (after w l i nw evs) =
  Return [echo_last w i n b] (after w l (n + i) nw (evs ++ echo_events w i n b)).
Proof.
  revert b i evs. induction n as [|n IH]; intros b i evs.
  - cbn. rewrite app_nil_r. reflexivity.
  - cbn [loop echo_events echo_last].
    eapply bind_run.
    { unfold Adafruit_IL0373.shift_one. cbn [nth]. apply write_readinto_run. }
    rewrite IH, Nat.add_succ_r, <- app_assoc. reflexivity.
Qed.

Lemma address_bytes_ok (bw : Z) :
  0 <= bw < 65536 ->
  forallb (fun b => (0 <=? b) && (b <? 256)) [Z.shiftr bw 8; Z.land bw 0xFF] = true.
Proof.
  intros H. cbn [forallb].
  rewrite (byte_check (Z.land bw 255)) by apply land_255_byte.
  rewrite byte_check; [reflexivity|].
  rewrite Z.shiftr_div_pow2 by lia.
  change (2 ^ 8) with 256.
  split; [apply Z.div_pos; lia | apply Z.div_lt_upper_bound; lia].
Qed.

Lemma one_byte_ok (b : Z) :
  0 <= b < 256 -> forallb (fun b => (0 <=? b) && (b <? 256)) [b] = true.
Proof. intros H. cbn [forallb]. rewrite (byte_check b H). reflexivity. Qed.

(** [display] with a store, run to its end. *)
Lemma display_sram_run (SRAM_READ : Z) (self : panel) (w : Bus.t) :
  has_sram self = true ->
  Bus.locked w = false ->
  0 <= SRAM_READ < 256 ->
  0 <= Adafruit_IL0373.bw_bufsize self < 65536 ->
  let n := Z.to_nat (Adafruit_IL0373.bw_bufsize self) in
  Adafruit_IL0373.display SRAM_READ self w =
  Return tt (after w false (4 + (n + S (n + 7))) (busy_waits self + (busy_waits self + 0))
               (display_sram_events SRAM_READ self w)).
Proof.
  intros Hs Hfree Hop Hbw n.
  rewrite (free_bus w Hfree) at 1.
  unfold Adafruit_IL0373.display. rewrite Hs.
  eapply bind_run; [apply power_up_run|cbv beta].
  eapply bind_run.
  { do 2 step.
    eapply bind_run; [apply bytearray_run, one_byte_ok, Hop|cbv beta].
    do 7 step.
    eapply bind_run; [apply bytearray_run, one_byte_ok, rx_byte|cbv beta].
    eapply bind_run; [apply echo_loop_run|cbv beta].
    do 4 step.
    eapply bind_run; [apply bytearray_run, one_byte_ok, Hop|cbv beta].
    step.
    eapply bind_run; [apply bytearray_run, address_bytes_ok, Hbw|cbv beta].
    do 5 step.
    eapply bind_run; [apply bytearray_run, one_byte_ok, rx_byte|cbv beta].
    eapply bind_run; [apply echo_loop_run|cbv beta].
    do 2 step.
    apply unlock_run. }
  rewrite update_run.
  unfold display_sram_events, read_from, pass_events. fold n.
  rewrite <- !app_assoc. reflexivity.
Qed.

(** [display] without a store, run to its end from the two plane buffers. *)
Lemma display_buffer_run (SRAM_READ : Z) (self : panel) (w : Bus.t)
    (bw_buf red_buf : list Z) :
  has_sram self = false ->
  Bus.locked w = false ->
  _bw_buffer self = Some bw_buf ->
  _red_buffer self = Some red_buf ->
  Adafruit_IL0373.display SRAM_READ self w =
  Return tt (after w false 12 (busy_waits self + (busy_waits self + 0))
               (display_buffer_events self w bw_buf red_buf)).
Proof.
  intros Hs Hfree Hb Hr.
  rewrite (free_bus w Hfree) at 1.
  unfold Adafruit_IL0373.display. rewrite Hs, Hb, Hr.
  eapply bind_run; [apply power_up_run|cbv beta].
  eapply bind_run.
  { do 3 step.
    eapply bind_run; [reflexivity|cbv beta].
    do 7 step.
    eapply bind_run; [reflexivity|cbv beta].
    do 2 step.
    apply unlock_run. }
  rewrite update_run.
  unfold display_buffer_events.
  rewrite <- !app_assoc. reflexivity.
Qed.

(** What stops [display] short: a bus that is held on entry. *)
Lemma display_hangs_on_held_bus (SRAM_READ : Z) (self : panel) (w : Bus.t) :
  Bus.locked w = true ->
  exists w', Adafruit_IL0373.display SRAM_READ self w = Hang w'.
Proof.
  intros Hheld.
  enough (H : exists w', Adafruit_IL0373.display SRAM_READ self (after w true 0 0 []) = Hang w').
  { rewrite <- Hheld, after_init in H. exact H. }
  eexists.
  unfold Adafruit_IL0373.display, Adafruit_IL0373.power_up, command.
  do 2 apply bind_Hang.
  do 3 (eapply bind_run; [apply set_value_run|]).
  apply bind_Hang, try_lock_held.
Qed.

(** What stops [display] short: a plane too large for the two address bytes
    of the store (line 155). *)
Lemma display_raises_on_large_plane (SRAM_READ : Z) (self : panel) (w : Bus.t) :
  has_sram self = true ->
  Bus.locked w = false ->
  0 <= SRAM_READ < 256 ->
  65536 <= Adafruit_IL0373.bw_bufsize self ->
  exists w', Adafruit_IL0373.display SRAM_READ self w = Raise ValueError w'.
Proof.
  intros Hs Hfree Hop Hbw.
  enough (H : exists w',
             Adafruit_IL0373.display SRAM_READ self (after w false 0 0 []) =
             Raise ValueError w').
  { rewrite <- (free_bus w Hfree) in H. exact H. }
  eexists.
  unfold Adafruit_IL0373.display. rewrite Hs.
  eapply bind_run; [apply power_up_run|cbv beta].
  apply bind_Raise.
  do 2 step.
  eapply bind_run; [apply bytearray_run, one_byte_ok, Hop|cbv beta].
  do 7 step.
  eapply bind_run; [apply bytearray_run, one_byte_ok, rx_byte|cbv beta].
  eapply bind_run; [apply echo_loop_run|cbv beta].
  do 4 step.
  eapply bind_run; [apply bytearray_run, one_byte_ok, Hop|cbv beta].
  step.
  apply bind_Raise.
  unfold Bus.bytearray. cbn [forallb].
  replace (Z.shiftr (Adafruit_IL0373.bw_bufsize self) 8 <? 256) with false.
  - rewrite andb_false_r. reflexivity.
  - symmetry. apply Z.ltb_ge.
    rewrite Z.shiftr_div_pow2 by lia. change (2 ^ 8) with 256.
    apply Z.div_le_lower_bound; lia.
Qed.

Section Observers.

Variables (cs dc : bool) (rest : list Bus.event).

Lemma cc_command_end (cmd b : Z) :
  controller_commands cs dc (command_events cmd None true b ++ rest) =
  cmd :: controller_commands true false rest.
Proof. reflexivity. Qed.

Lemma cc_command_keep (cmd b : Z) :
  controller_commands cs dc (command_events cmd None false b ++ rest) =
  cmd :: controller_commands false false rest.
Proof. reflexivity. Qed.

Lemma cc_command_data (cmd b : Z) (dat : list Z) (end_ : bool) :
  controller_commands cs dc (command_events cmd (Some dat) end_ b ++ rest) =
  cmd :: controller_commands true true rest.
Proof. reflexivity. Qed.

Lemma cc_polls (n : nat) :
  controller_commands cs dc (polls n ++ rest) = controller_commands cs dc rest.
Proof. induction n as [|n IH]; [reflexivity | exact IH]. Qed.

Lemma cc_busy (self : panel) (w : Bus.t) (nw : nat) (ms : Z) :
  controller_commands cs dc (busy_events self w nw ms ++ rest) =
  controller_commands cs dc rest.
Proof.
  unfold busy_events. destruct (has_busy self); [apply cc_polls | reflexivity].
Qed.

End Observers.

Lemma cc_echo (w : Bus.t) (i n : nat) (b : Z) (rest : list Bus.event) :
  controller_commands false true (echo_events w i n b ++ rest) =
  controller_commands false true rest.
Proof.
  revert i b. induction n as [|n IH]; intros i b; [reflexivity|].
  cbn [echo_events app controller_commands negb andb]. apply IH.
Qed.

Lemma cc_power_up (self : panel) (w : Bus.t) (nx nw : nat) (cs dc : bool)
    (rest : list Bus.event) :
  controller_commands cs dc (power_up_events self w nx nw ++ rest) =
  [0x04; 0x00; 0x50; 0x30; 0x61; 0x82] ++ controller_commands true true rest.
Proof.
  unfold power_up_events. rewrite <- !app_assoc.
  rewrite cc_command_end, cc_busy.
  cbn [app controller_commands].
  rewrite !cc_command_data. reflexivity.
Qed.

Lemma cc_update (self : panel) (w : Bus.t) (nx nw : nat) (cs dc : bool) :
  controller_commands cs dc (update_events self w nx nw) = [0x12; 0x50; 0x82; 0x02].
Proof.
  unfold update_events.
  rewrite cc_command_end, cc_busy, !cc_command_data.
  reflexivity.
Qed.

Lemma cc_display_sram (SRAM_READ : Z) (self : panel) (w : Bus.t) (cs dc : bool) :
  controller_commands cs dc (display_sram_events SRAM_READ self w) = refresh_opcodes.
Proof.
  unfold display_sram_events, read_from, pass_events.
  rewrite <- !app_assoc. rewrite cc_power_up.
  cbn [app controller_commands negb andb].
  rewrite cc_command_keep.
  cbn [app controller_commands negb andb].
  rewrite cc_echo.
  cbn [app controller_commands negb andb].
  rewrite cc_command_keep.
  cbn [app controller_commands negb andb].
  rewrite cc_echo.
  cbn [app controller_commands negb andb].
  rewrite cc_update. reflexivity.
Qed.

Lemma cc_display_buffer (self : panel) (w : Bus.t) (b1 b2 : list Z) (cs dc : bool) :
  controller_commands cs dc (display_buffer_events self w b1 b2) = refresh_opcodes.
Proof.
  unfold display_buffer_events.
  rewrite cc_power_up, cc_command_keep.
  cbn [app controller_commands negb andb].
  rewrite cc_command_keep.
  cbn [app controller_commands negb andb].
  rewrite cc_update. reflexivity.
Qed.

(** C2. A [display] call on a free bus (with a store: a byte-sized store
    opcode and a plane that fits the store's two-byte address; without one:
    the two plane buffers) returns, and the bytes the controller takes as
    commands during it are exactly 0x04, 0x00, 0x50, 0x30, 0x61, 0x82, 0x10,
    0x13, 0x12, 0x50, 0x82, 0x02, in this order, with none in between. *)
Theorem display_issues_refresh_opcodes (SRAM_READ : Z) (self : panel) (w : Bus.t) :
  display_ready SRAM_READ self w ->
  exists w' evs,
    Adafruit_IL0373.display SRAM_READ self w = Return tt w' /\
    Bus.log w' = Bus.log w ++ evs /\
    forall cs dc, controller_commands cs dc evs = refresh_opcodes.
Proof.
  intros [Hfree Hready].
  destruct (has_sram self) eqn:Hs.
  - destruct Hready as [Hop Hbw].
    do 2 eexists.
    split; [apply (display_sram_run SRAM_READ self w Hs Hfree Hop Hbw)|].
    split; [reflexivity|].
    intros cs dc. apply cc_display_sram.
  - destruct Hready as [Hb Hr].
    destruct (_bw_buffer self) as [b1|] eqn:E1; [|contradiction].
    destruct (_red_buffer self) as [b2|] eqn:E2; [|contradiction].
    do 2 eexists.
    split; [apply (display_buffer_run SRAM_READ self w b1 b2 Hs Hfree E1 E2)|].
    split; [reflexivity|].
    intros cs dc. apply cc_display_buffer.
Qed.

Lemma display_issues_refresh_opcodes_witness :
  exists w' evs,
    Adafruit_IL0373.display 0x03 panel_152 idle = Return tt w' /\
    Bus.log w' = evs /\
    forall cs dc, controller_commands cs dc evs = refresh_opcodes.
Proof.
  apply (display_issues_refresh_opcodes 0x03 panel_152 idle).
  split; [reflexivity|].
  cbn. repeat split; try lia; discriminate.
Defined.

Lemma length_echo_events (w : Bus.t) (i n : nat) (b : Z) :
  length (echo_events w i n b) = n.
Proof.
  revert i b. induction n as [|n IH]; intros i b; cbn [echo_events length].
  - reflexivity.
  - rewrite IH. reflexivity.
Qed.

Lemma echo_chain_echo_events (w : Bus.t) (i n : nat) (b : Z) :
  echo_chain b (echo_events w i n b).
Proof.
  revert i b. induction n as [|n IH]; intros i b; cbn [echo_events echo_chain].
  - exact I.
  - split; [reflexivity | apply IH].
Qed.

Lemma level_app (p : Bus.pin) (init : bool) (l1 l2 : list Bus.event) :
  level p init (l1 ++ l2) = level p (level p init l1) l2.
Proof.
  revert init. induction l1 as [|e l1 IH]; intros init; [reflexivity|].
  destruct e; cbn [app level]; apply IH.
Qed.

(** A pass ends with both chip-selects high, whatever came before. *)
Lemma pass_ends_deselected (front xs : list Bus.event) (cs0 sram_cs0 : bool) :
  let evs := front ++ xs ++ [Bus.PinSet Bus.CS true; Bus.PinSet Bus.SRAM_CS true] in
  level Bus.CS cs0 evs = true /\ level Bus.SRAM_CS sram_cs0 evs = true.
Proof.
  cbv zeta. rewrite !level_app. split; reflexivity.
Qed.

(** C3. With a store present, [display] runs two transfer passes, DTM1 then
    DTM2. Each is the transfer command, whose exchange receives a byte [b],
    followed by exactly [bw_bufsize] (for DTM2, [red_bufsize]) full-duplex
    exchanges, the first sending [b] and each next one sending what the one
    before received; it ends by raising the display chip-select and the store
    chip-select, so that both are high (deselected) when the pass is over. *)
Theorem display_sram_transfer_passes (SRAM_READ : Z) (self : panel) (w : Bus.t) :
  has_sram self = true ->
  display_ready SRAM_READ self w ->
  exists w' before between rest b1 b2 xs1 xs2,
    let pass1 :=
      command_events Adafruit_IL0373._IL0373_DTM1 None false b1 ++
      [Bus.TryLock; Bus.PinSet Bus.DC true] ++ xs1 ++
      [Bus.PinSet Bus.CS true; Bus.PinSet Bus.SRAM_CS true] in
    let pass2 :=
      command_events Adafruit_IL0373._IL0373_DTM2 None false b2 ++
      [Bus.TryLock; Bus.PinSet Bus.DC true] ++ xs2 ++
      [Bus.PinSet Bus.CS true; Bus.PinSet Bus.SRAM_CS true] in
    Adafruit_IL0373.display SRAM_READ self w = Return tt w' /\
    Bus.log w' = Bus.log w ++ before ++ pass1 ++ between ++ pass2 ++ rest /\
    length xs1 = Z.to_nat (Adafruit_IL0373.bw_bufsize self) /\
    echo_chain b1 xs1 /\
    length xs2 = Z.to_nat (Adafruit_IL0373.red_bufsize self) /\
    echo_chain b2 xs2 /\
    (forall cs0 sram_cs0,
       level Bus.CS cs0 (before ++ pass1) = true /\
       level Bus.SRAM_CS sram_cs0 (before ++ pass1) = true) /\
    (forall cs0 sram_cs0,
       level Bus.CS cs0 (before ++ pass1 ++ between ++ pass2) = true /\
       level Bus.SRAM_CS sram_cs0 (before ++ pass1 ++ between ++ pass2) = true).
Proof.
  intros Hs [Hfree Hready]. rewrite Hs in Hready. destruct Hready as [Hop Hbw].
  pose (n := Z.to_nat (Adafruit_IL0373.bw_bufsize self)).
  pose (bw := Adafruit_IL0373.bw_bufsize self).
  exists (after w false (4 + (n + S (n + 7))) (busy_waits self + (busy_waits self + 0))
            (display_sram_events SRAM_READ self w)).
  exists (power_up_events self w 0 0 ++ [Bus.TryLock] ++ read_from SRAM_READ [0x00; 0x00]).
  exists ([Bus.Sleep 2] ++ read_from SRAM_READ [Z.shiftr bw 8; Z.land bw 0xFF]).
  exists ([Bus.Unlock] ++ update_events self w (n + S (n + 7)) (busy_waits self + 0)).
  exists (rx w 6), (rx w (n + 7)).
  exists (echo_events w 7 n (rx w 6)), (echo_events w (S (n + 7)) n (rx w (n + 7))).
  cbv zeta.
  split; [apply (display_sram_run SRAM_READ self w Hs Hfree Hop Hbw)|].
  split.
  { rewrite log_after. f_equal.
    unfold display_sram_events, pass_events. fold n bw.
    rewrite <- !app_assoc. reflexivity. }
  split; [apply length_echo_events|].
  split; [apply echo_chain_echo_events|].
  split; [apply length_echo_events|].
  split; [apply echo_chain_echo_events|].
  split; intros cs0 sram_cs0.
  - rewrite !app_assoc. rewrite <- app_assoc.
    apply pass_ends_deselected.
  - rewrite !app_assoc. rewrite <- app_assoc.
    apply pass_ends_deselected.
Qed.

Lemma display_sram_transfer_passes_witness :
  exists w' before between rest b1 b2 xs1 xs2,
    Adafruit_IL0373.display 0x03 panel_152 idle = Return tt w' /\
    Bus.log w' =
      before ++
      (command_events 0x10 None false b1 ++ [Bus.TryLock; Bus.PinSet Bus.DC true] ++ xs1 ++
       [Bus.PinSet Bus.CS true; Bus.PinSet Bus.SRAM_CS true]) ++
      between ++
      (command_events 0x13 None false b2 ++ [Bus.TryLock; Bus.PinSet Bus.DC true] ++ xs2 ++
       [Bus.PinSet Bus.CS true; Bus.PinSet Bus.SRAM_CS true]) ++
      rest /\
    length xs1 = 2888%nat /\ length xs2 = 2888%nat.
Proof.
  destruct (display_sram_transfer_passes 0x03 panel_152 idle)
    as (w' & before & between & rest & b1 & b2 & xs1 & xs2 & Hrun & Hlog & Hn1 & _ & Hn2 & _).
  - reflexivity.
  - split; [reflexivity|]. cbn. repeat split; try lia; discriminate.
  - exists w', before, between, rest, b1, b2, xs1, xs2.
    repeat split; assumption.
Defined.

(* ===================================================================== *)
(** * More on the frame store *)

Lemma byte_from_bits (v : Z) :
  0 <= v -> (forall i, 8 <= i -> Z.testbit v i = false) -> 0 <= v < 256.
Proof.
  intros Hv Hhigh.
  assert (E : v mod 2 ^ 8 = v).
  { apply Z.bits_inj'. intros i Hi.
    destruct (Z.lt_ge_cases i 8) as [Hlt | Hge].
    - apply Z.mod_pow2_bits_low. lia.
    - rewrite Z.mod_pow2_bits_high by lia. symmetry. apply Hhigh. exact Hge. }
  rewrite <- E. apply Z.mod_pos_bound. reflexivity.
Qed.

Lemma byte_high_bits (v : Z) (i : Z) :
  0 <= v < 256 -> 8 <= i -> Z.testbit v i = false.
Proof.
  intros Hv Hi.
  rewrite <- (Z.mod_small v (2 ^ 8)) by (change (2 ^ 8) with 256; lia).
  apply Z.mod_pow2_bits_high. lia.
Qed.

(** Whatever the colour, the byte [pixel] writes back is a byte when the one
    it read was. *)
Lemma updated_byte (color y c : Z) : 0 <= c < 256 -> 0 <= updated color y c < 256.
Proof.
  intros Hc. pose proof (bit_position_range y) as Hk.
  assert (Hm : 0 <= Z.shiftl 1 (7 - y mod 8)).
  { apply Z.shiftl_nonneg. lia. }
  unfold updated.
  destruct (color =? WHITE); [|destruct ((color =? RED) || (color =? BLACK));
                                [|destruct (color =? INVERSE)]].
  - apply byte_from_bits.
    + apply Z.lor_nonneg. lia.
    + intros i Hi. rewrite set_bit by lia.
      replace (i =? 7 - y mod 8) with false by (symmetry; apply Z.eqb_neq; lia).
      apply byte_high_bits; assumption.
  - apply byte_from_bits.
    + apply Z.land_nonneg. left. lia.
    + intros i Hi. rewrite clear_bit by lia.
      replace (i =? 7 - y mod 8) with false by (symmetry; apply Z.eqb_neq; lia).
      apply byte_high_bits; assumption.
  - apply byte_from_bits.
    + apply Z.lxor_nonneg. lia.
    + intros i Hi. rewrite flip_bit by lia.
      replace (i =? 7 - y mod 8) with false by (symmetry; apply Z.eqb_neq; lia).
      apply byte_high_bits; assumption.
  - exact Hc.
Qed.

(** X1. A store that holds only bytes still holds only bytes after any
    [pixel] call, whatever the coordinate and the colour. *)
Theorem pixel_keeps_bytes (self : panel) (x y color : Z) (st : surface) :
  has_sram self = true ->
  bytes_only (sram st) ->
  exists st',
    Adafruit_IL0373.pixel self x y color st = Return tt st' /\
    bytes_only (sram st').
Proof.
  intros Hs Hb.
  destruct ((x <? 0) || (x >=? width self) || (y <? 0) || (y >=? height self)) eqn:E.
  - exists st. split; [|exact Hb].
    unfold Adafruit_IL0373.pixel. rewrite Hs, E. reflexivity.
  - assert (Hx : 0 <= x < width self) by (repeat (apply orb_false_elim in E as [E ?]); lia).
    assert (Hy : 0 <= y < height self) by (repeat (apply orb_false_elim in E as [E ?]); lia).
    eexists. split; [apply (pixel_sram_step self x y color st Hs Hx Hy)|].
    intros a. cbn [sram mem].
    destruct (a =? target self x y color); [apply updated_byte|]; apply Hb.
Qed.

Lemma blank_bytes_only : bytes_only (sram blank).
Proof. intros a. cbn. lia. Qed.

Lemma pixel_keeps_bytes_witness :
  exists st',
    Adafruit_IL0373.pixel panel_152 3 20 INVERSE blank = Return tt st' /\
    bytes_only (sram st').
Proof.
  apply (pixel_keeps_bytes panel_152 3 20 INVERSE blank).
  - reflexivity.
  - exact blank_bytes_only.
Defined.

Lemma updated_twice (color y c : Z) :
  color <> INVERSE -> updated color y (updated color y c) = updated color y c.
Proof.
  intros Hc. apply Z.eqb_neq in Hc. unfold updated. rewrite Hc.
  destruct (color =? WHITE).
  - rewrite <- Z.lor_assoc, Z.lor_diag. reflexivity.
  - destruct ((color =? RED) || (color =? BLACK)); [|reflexivity].
    rewrite <- Z.land_assoc, Z.land_diag. reflexivity.
Qed.

(** X2. With a store and (x, y) inside the panel, painting one pixel twice
    with the same colour other than INVERSE leaves the store as painting it
    once does. *)
Theorem pixel_twice_same_colour (self : panel) (x y color : Z) (st : surface) :
  has_sram self = true ->
  0 <= x < width self -> 0 <= y < height self ->
  color <> INVERSE ->
  exists st1 st2,
    Adafruit_IL0373.pixel self x y color st = Return tt st1 /\
    Adafruit_IL0373.pixel self x y color st1 = Return tt st2 /\
    forall a, mem (sram st2) a = mem (sram st1) a.
Proof.
  intros Hs Hx Hy Hc.
  do 2 eexists.
  split; [apply (pixel_sram_step self x y color st Hs Hx Hy)|].
  split; [apply (pixel_sram_step self x y color _ Hs Hx Hy)|].
  intros a. cbn [sram mem]. rewrite Z.eqb_refl.
  destruct (a =? target self x y color); [|reflexivity].
  apply updated_twice. exact Hc.
Qed.

Lemma pixel_twice_same_colour_witness :
  exists st1 st2,
    Adafruit_IL0373.pixel panel_152 3 20 RED blank = Return tt st1 /\
    Adafruit_IL0373.pixel panel_152 3 20 RED st1 = Return tt st2 /\
    forall a, mem (sram st2) a = mem (sram st1) a.
Proof.
  apply (pixel_twice_same_colour panel_152 3 20 RED blank).
  - reflexivity.
  - cbn; lia.
  - cbn; lia.
  - discriminate.
Defined.

(** X3. On a panel at least two columns wide, a [pixel] call on column 0 does
    exactly what the same call on column 1 does: column 0 has no bits of its
    own. *)
Theorem pixel_column_0_is_column_1 (self : panel) (y color : Z) (st : surface) :
  has_sram self = true ->
  2 <= width self -> 0 <= y < height self ->
  Adafruit_IL0373.pixel self 0 y color st = Adafruit_IL0373.pixel self 1 y color st.
Proof.
  intros Hs Hw Hy.
  rewrite (pixel_sram_step self 0 y color st Hs) by lia.
  rewrite (pixel_sram_step self 1 y color st Hs) by lia.
  reflexivity.
Qed.

Lemma pixel_column_0_is_column_1_witness :
  Adafruit_IL0373.pixel panel_152 0 9 BLACK blank =
  Adafruit_IL0373.pixel panel_152 1 9 BLACK blank.
Proof.
  apply (pixel_column_0_is_column_1 panel_152 9 BLACK blank).
  - reflexivity.
  - cbn; lia.
  - cbn; lia.
Defined.




Lemma column_range (self : panel) (x : Z) :
  0 <= x < width self -> 1 <= (if x =? 0 then 1 else x) <= width self.
Proof.
  intros Hx. destruct (x =? 0) eqn:E; [|apply Z.eqb_neq in E]; lia.
Qed.















(* ===================================================================== *)
(** * More on the bus transport *)

(** X8. A [command] call on a free bus with an opcode that is a byte
    returns the byte shifted in, leaves the bus free, leaves the display
    selected (chip-select low) only when it has no payload and [end] is
    false, and leaves the data/command line high exactly when it had a
    payload; with a payload, [end] plays no part. *)
Theorem command_chip_select_policy
    (cmd : Z) (data_ : option (list Z)) (end_ : bool) (w : Bus.t) :
  Bus.locked w = false -> 0 <= cmd < 256 ->
  exists w' evs,
    command cmd data_ end_ w = Return (Bus.miso w (Bus.exchanged w) mod 256) w' /\
    Bus.log w' = Bus.log w ++ evs /\
    Bus.locked w' = false /\
    (forall cs0, level Bus.CS cs0 evs =
                 match data_ with Some _ => true | None => end_ end) /\
    (forall dc0, level Bus.DC dc0 evs =
                 match data_ with Some _ => true | None => false end).
Proof.
  intros Hfree Hcmd.
  pose proof (command_run cmd data_ end_ w 0 0 [] Hcmd) as Hrun.
  rewrite <- (free_bus w Hfree) in Hrun.
  do 2 eexists. split.
  { rewrite Hrun. unfold rx. rewrite Nat.add_0_r. reflexivity. }
  split; [reflexivity|]. split; [reflexivity|].
  destruct data_ as [dat|]; [|destruct end_]; split; intros; reflexivity.
Qed.

Lemma command_chip_select_policy_witness :
  exists w' evs,
    command 0x10 None false idle = Return 0xA5 w' /\
    Bus.log w' = evs /\
    Bus.locked w' = false /\
    (forall cs0, level Bus.CS cs0 evs = false) /\
    (forall dc0, level Bus.DC dc0 evs = false).
Proof.
  apply (command_chip_select_policy 0x10 None false idle).
  - reflexivity.
  - lia.
Defined.

Lemma bytearray_out_of_range {S} (b : Z) (s : S) :
  b < 0 \/ 255 < b -> Bus.bytearray [b] s = Raise ValueError s.
Proof.
  intros H. unfold Bus.bytearray. cbn [forallb].
  replace ((0 <=? b) && (b <? 256)) with false; [reflexivity|].
  symmetry. apply andb_false_iff. destruct H; [left | right]; lia.
Qed.

(** X9. A [command] call on a free bus with an opcode outside 0..255 raises
    ValueError after taking the lock and selecting the display: nothing was
    sent, the bus stays locked and the display selected, and every later
    [command] call never returns. *)
Theorem command_bad_opcode_keeps_lock
    (cmd : Z) (data_ : option (list Z)) (end_ : bool) (w : Bus.t) :
  Bus.locked w = false -> cmd < 0 \/ 255 < cmd ->
  exists w',
    command cmd data_ end_ w = Raise ValueError w' /\
    Bus.log w' =
      Bus.log w ++
      [Bus.PinSet Bus.CS true; Bus.PinSet Bus.DC false; Bus.PinSet Bus.CS false;
       Bus.TryLock] /\
    Bus.locked w' = true /\
    forall cmd2 data2 end2, exists w'', command cmd2 data2 end2 w' = Hang w''.
Proof.
  intros Hfree Hcmd.
  exists (after w true 0 0
            [Bus.PinSet Bus.CS true; Bus.PinSet Bus.DC false; Bus.PinSet Bus.CS false;
             Bus.TryLock]).
  split.
  { rewrite (free_bus w Hfree) at 1. unfold command.
    do 3 (eapply bind_run; [apply set_value_run|]).
    eapply bind_run; [apply try_lock_run|].
    apply bind_Raise. apply bytearray_out_of_range. exact Hcmd. }
  split; [reflexivity|]. split; [reflexivity|].
  intros cmd2 data2 end2. eexists. unfold command.
  do 3 (eapply bind_run; [apply set_value_run|]).
  apply bind_Hang, try_lock_held.
Qed.

Lemma command_bad_opcode_keeps_lock_witness :
  exists w',
    command 0x100 None true idle = Raise ValueError w' /\
    Bus.log w' =
      [Bus.PinSet Bus.CS true; Bus.PinSet Bus.DC false; Bus.PinSet Bus.CS false;
       Bus.TryLock] /\
    Bus.locked w' = true /\
    forall cmd2 data2 end2, exists w'', command cmd2 data2 end2 w' = Hang w''.
Proof.
  apply (command_bad_opcode_keeps_lock 0x100 None true idle).
  - reflexivity.
  - right. lia.
Defined.

Section DataObservers.

Variables (cs dc : bool) (rest : list Bus.event).

Lemma cd_command_end (cmd b : Z) :
  controller_data cs dc (command_events cmd None true b ++ rest) =
  controller_data true false rest.
Proof. reflexivity. Qed.

Lemma cd_command_keep (cmd b : Z) :
  controller_data cs dc (command_events cmd None false b ++ rest) =
  controller_data false false rest.
Proof. reflexivity. Qed.

Lemma cd_command_data (cmd b : Z) (dat : list Z) (end_ : bool) :
  controller_data cs dc (command_events cmd (Some dat) end_ b ++ rest) =
  dat ++ controller_data true true rest.
Proof.
  unfold command_events. cbn [app controller_data negb andb].
  reflexivity.
Qed.

Lemma cd_polls (n : nat) :
  controller_data cs dc (polls n ++ rest) = controller_data cs dc rest.
Proof. induction n as [|n IH]; [reflexivity | exact IH]. Qed.

Lemma cd_busy (self : panel) (w : Bus.t) (nw : nat) (ms : Z) :
  controller_data cs dc (busy_events self w nw ms ++ rest) =
  controller_data cs dc rest.
Proof.
  unfold busy_events. destruct (has_busy self); [apply cd_polls | reflexivity].
Qed.

End DataObservers.

(** The bytes the transfer loop sends are the bytes shifted in, one exchange
    late. *)
Lemma cd_echo (w : Bus.t) (i n : nat) (rest : list Bus.event) :
  controller_data false true (echo_events w (S i) n (rx w i) ++ rest) =
  map (rx w) (seq i n) ++ controller_data false true rest.
Proof.
  revert i. induction n as [|n IH]; intros i; [reflexivity|].
  cbn [echo_events app controller_data negb andb seq map].
  rewrite IH. reflexivity.
Qed.

Lemma cd_power_up (self : panel) (w : Bus.t) (nx nw : nat) (cs dc : bool)
    (rest : list Bus.event) :
  controller_data cs dc (power_up_events self w nx nw ++ rest) =
  [0xCF; 0x37; 0x29] ++ resolution_bytes self ++ [0x0A] ++ controller_data true true rest.
Proof.
  unfold power_up_events. rewrite <- !app_assoc.
  rewrite cd_command_end, cd_busy.
  cbn [app controller_data].
  rewrite !cd_command_data. reflexivity.
Qed.

Lemma cd_update (self : panel) (w : Bus.t) (nx nw : nat) (cs dc : bool) :
  controller_data cs dc (update_events self w nx nw) = [0x17; 0x00].
Proof.
  unfold update_events.
  rewrite cd_command_end, cd_busy, !cd_command_data.
  reflexivity.
Qed.

Lemma cd_display_sram (SRAM_READ : Z) (self : panel) (w : Bus.t) (cs dc : bool) :
  let n := Z.to_nat (Adafruit_IL0373.bw_bufsize self) in
  controller_data cs dc (display_sram_events SRAM_READ self w) =
  [0xCF; 0x37; 0x29] ++ resolution_bytes self ++ [0x0A] ++
  map (rx w) (seq 6 n) ++ map (rx w) (seq (n + 7) n) ++ [0x17; 0x00].
Proof.
  intros n.
  unfold display_sram_events, read_from, pass_events. fold n.
  rewrite <- !app_assoc. rewrite cd_power_up.
  cbn [app controller_data negb andb].
  rewrite cd_command_keep.
  cbn [app controller_data negb andb].
  rewrite cd_echo.
  cbn [app controller_data negb andb].
  rewrite cd_command_keep.
  cbn [app controller_data negb andb].
  rewrite cd_echo.
  cbn [app controller_data negb andb].
  rewrite cd_update. reflexivity.
Qed.

(** X10. With a store, the data bytes a [display] call hands the controller
    are, in order: the five configuration payloads of [power_up]; for DTM1
    the [bw_bufsize] bytes shifted in from the bus starting with the one that
    came back while the DTM1 opcode went out; the same for DTM2; the two
    payloads of [update]. The byte shifted in by the last exchange of a pass
    is sent nowhere. *)
Theorem display_streams_store_bytes (SRAM_READ : Z) (self : panel) (w : Bus.t) :
  has_sram self = true ->
  display_ready SRAM_READ self w ->
  let n := Z.to_nat (Adafruit_IL0373.bw_bufsize self) in
  let received k := Bus.miso w (Bus.exchanged w + k) mod 256 in
  exists w' evs,
    Adafruit_IL0373.display SRAM_READ self w = Return tt w' /\
    Bus.log w' = Bus.log w ++ evs /\
    forall cs dc,
      controller_data cs dc evs =
      [0xCF; 0x37; 0x29] ++
      [Z.land (height self) 0xFF; Z.land (Z.shiftr (height self) 8) 0xFF;
       Z.land (width self) 0xFF; Z.land (Z.shiftr (width self) 8) 0xFF] ++
      [0x0A] ++
      map received (seq 6 n) ++ map received (seq (n + 7) n) ++ [0x17; 0x00].
Proof.
  intros Hs [Hfree Hready] n received. rewrite Hs in Hready.
  destruct Hready as [Hop Hbw].
  do 2 eexists.
  split; [apply (display_sram_run SRAM_READ self w Hs Hfree Hop Hbw)|].
  split; [reflexivity|].
  intros cs dc. apply cd_display_sram.
Qed.

Lemma display_streams_store_bytes_witness :
  exists w' evs,
    Adafruit_IL0373.display 0x03 panel_152 idle = Return tt w' /\
    Bus.log w' = evs /\
    forall cs dc,
      controller_data cs dc evs =
      [0xCF; 0x37; 0x29] ++ [0x98; 0x00; 0x98; 0x00] ++ [0x0A] ++
      map (fun _ => 0xA5) (seq 6 2888) ++ map (fun _ => 0xA5) (seq 2895 2888) ++
      [0x17; 0x00].
Proof.
  apply (display_streams_store_bytes 0x03 panel_152 idle).
  - reflexivity.
  - split; [reflexivity|]. cbn. repeat split; try lia; discriminate.
Defined.

Lemma little_endian_16 (n : Z) :
  Z.land n 0xFF + 256 * Z.land (Z.shiftr n 8) 0xFF = n mod 65536.
Proof.
  change 0xFF with (Z.ones 8).
  rewrite !Z.land_ones, Z.shiftr_div_pow2 by lia.
  change (2 ^ 8) with 256. change 65536 with (256 * 256).
  rewrite Z.rem_mul_r by lia. reflexivity.
Qed.

(** X11. [power_up] on a free bus sends with the resolution opcode 0x61 four
    bytes that are the height and then the width, each as two bytes, low byte
    first, taken modulo 65536: b1 + 256 * b2 = height mod 65536 and
    b3 + 256 * b4 = width mod 65536. *)
Theorem power_up_resolution_payload (self : panel) (w : Bus.t) :
  Bus.locked w = false ->
  exists w' before rest b1 b2 b3 b4 r,
    Adafruit_IL0373.power_up self w = Return tt w' /\
    Bus.log w' =
      Bus.log w ++ before ++
      command_events Adafruit_IL0373._IL0373_RESOLUTION (Some [b1; b2; b3; b4]) true r ++
      rest /\
    (forall b, In b [b1; b2; b3; b4] -> 0 <= b < 256) /\
    b1 + 256 * b2 = height self mod 65536 /\
    b3 + 256 * b4 = width self mod 65536 /\
    (forall cs dc, controller_commands cs dc before = [0x04; 0x00; 0x50; 0x30]).
Proof.
  intros Hfree.
  pose proof (power_up_run self w 0 0 []) as Hrun.
  rewrite <- (free_bus w Hfree) in Hrun.
  exists (after w false 6 (busy_waits self + 0) ([] ++ power_up_events self w 0 0)).
  exists (command_events Adafruit_IL0373._IL0373_POWER_ON None true (rx w 0) ++
          busy_events self w 0 3000 ++ [Bus.Sleep 200] ++
          command_events Adafruit_IL0373._IL0373_PANEL_SETTING (Some [0xCF]) true (rx w 1) ++
          command_events Adafruit_IL0373._IL0373_CDI (Some [0x37]) true (rx w 2) ++
          command_events Adafruit_IL0373._IL0373_PLL (Some [0x29]) true (rx w 3)).
  exists (command_events Adafruit_IL0373._IL0373_VCM_DC_SETTING (Some [0x0A]) true (rx w 5)).
  exists (Z.land (height self) 0xFF), (Z.land (Z.shiftr (height self) 8) 0xFF).
  exists (Z.land (width self) 0xFF), (Z.land (Z.shiftr (width self) 8) 0xFF).
  exists (rx w 4).
  split; [exact Hrun|].
  split.
  { rewrite log_after. f_equal. unfold power_up_events, resolution_bytes.
    cbn [app Nat.add]. rewrite <- !app_assoc. reflexivity. }
  split.
  { intros b [<- | [<- | [<- | [<- | []]]]]; apply land_255_byte. }
  split; [apply little_endian_16|].
  split; [apply little_endian_16|].
  intros cs dc.
  rewrite cc_command_end, cc_busy.
  cbn [app controller_commands].
  rewrite !cc_command_data.
  rewrite <- (app_nil_r (command_events _ _ _ _)), cc_command_data. reflexivity.
Qed.

Lemma power_up_resolution_payload_witness :
  exists w' before rest b1 b2 b3 b4 r,
    Adafruit_IL0373.power_up panel_104x212 idle = Return tt w' /\
    Bus.log w' =
      before ++ command_events 0x61 (Some [b1; b2; b3; b4]) true r ++ rest /\
    b1 + 256 * b2 = 212 /\
    b3 + 256 * b4 = 104.
Proof.
  destruct (power_up_resolution_payload panel_104x212 idle)
    as (w' & before & rest & b1 & b2 & b3 & b4 & r & Hrun & Hlog & _ & Hh & Hw & _).
  - reflexivity.
  - exists w', before, rest, b1, b2, b3, b4, r.
    split; [exact Hrun|]. split; [exact Hlog|]. split; [exact Hh | exact Hw].
Defined.

Section PinLevels.

Variables (p : Bus.pin) (init : bool) (rest : list Bus.event).

Lemma level_polls (n : nat) : level p init (polls n ++ rest) = level p init rest.
Proof. induction n as [|n IH]; [reflexivity | exact IH]. Qed.

Lemma level_busy (self : panel) (w : Bus.t) (nw : nat) (ms : Z) :
  level p init (busy_events self w nw ms ++ rest) = level p init rest.
Proof.
  unfold busy_events. destruct (has_busy self); [apply level_polls | reflexivity].
Qed.

Lemma level_echo (w : Bus.t) (i n : nat) (b : Z) :
  level p init (echo_events w i n b ++ rest) = level p init rest.
Proof.
  revert i b. induction n as [|n IH]; intros i b; [reflexivity|].
  cbn [echo_events app level]. apply IH.
Qed.

End PinLevels.

Lemma level_SRAM_CS_command (cmd : Z) (data_ : option (list Z)) (end_ : bool) (b : Z)
    (init : bool) (rest : list Bus.event) :
  level Bus.SRAM_CS init (command_events cmd data_ end_ b ++ rest) =
  level Bus.SRAM_CS init rest.
Proof. destruct data_ as [dat|]; [|destruct end_]; reflexivity. Qed.

Lemma level_CS_command (cmd : Z) (data_ : option (list Z)) (end_ : bool) (b : Z)
    (init : bool) (rest : list Bus.event) :
  level Bus.CS init (command_events cmd data_ end_ b ++ rest) =
  level Bus.CS (match data_ with Some _ => true | None => end_ end) rest.
Proof. destruct data_ as [dat|]; [|destruct end_]; reflexivity. Qed.

Lemma level_SRAM_CS_power_up (self : panel) (w : Bus.t) (nx nw : nat) (init : bool)
    (rest : list Bus.event) :
  level Bus.SRAM_CS init (power_up_events self w nx nw ++ rest) =
  level Bus.SRAM_CS init rest.
Proof.
  unfold power_up_events. rewrite <- !app_assoc.
  rewrite level_SRAM_CS_command, level_busy.
  cbn [app level pin_eqb].
  rewrite !level_SRAM_CS_command. reflexivity.
Qed.

Lemma level_CS_power_up (self : panel) (w : Bus.t) (nx nw : nat) (init : bool)
    (rest : list Bus.event) :
  level Bus.CS init (power_up_events self w nx nw ++ rest) = level Bus.CS true rest.
Proof.
  unfold power_up_events. rewrite <- !app_assoc.
  rewrite level_CS_command, level_busy.
  cbn [app level pin_eqb].
  rewrite !level_CS_command. reflexivity.
Qed.

Lemma level_SRAM_CS_update (self : panel) (w : Bus.t) (nx nw : nat) (init : bool) :
  level Bus.SRAM_CS init (update_events self w nx nw) = init.
Proof.
  unfold update_events.
  rewrite level_SRAM_CS_command, level_busy, !level_SRAM_CS_command. reflexivity.
Qed.

Lemma level_CS_update (self : panel) (w : Bus.t) (nx nw : nat) (init : bool) :
  level Bus.CS init (update_events self w nx nw) = true.
Proof.
  unfold update_events.
  rewrite level_CS_command, level_busy, !level_CS_command. reflexivity.
Qed.

(** X12. A [display] call that has what it needs returns with the bus free
    and the display chip-select high; with a store, the store chip-select is
    high as well. *)
Theorem display_ends_released (SRAM_READ : Z) (self : panel) (w : Bus.t) :
  display_ready SRAM_READ self w ->
  exists w' evs,
    Adafruit_IL0373.display SRAM_READ self w = Return tt w' /\
    Bus.log w' = Bus.log w ++ evs /\
    Bus.locked w' = false /\
    (forall cs0, level Bus.CS cs0 evs = true) /\
    (has_sram self = true -> forall sram_cs0, level Bus.SRAM_CS sram_cs0 evs = true).
Proof.
  intros [Hfree Hready].
  destruct (has_sram self) eqn:Hs.
  - destruct Hready as [Hop Hbw].
    do 2 eexists.
    split; [apply (display_sram_run SRAM_READ self w Hs Hfree Hop Hbw)|].
    split; [reflexivity|]. split; [reflexivity|].
    split.
    + intros cs0. unfold display_sram_events.
      rewrite !app_assoc, level_app. apply level_CS_update.
    + intros _ s0. unfold display_sram_events, read_from, pass_events.
      rewrite <- !app_assoc. rewrite level_SRAM_CS_power_up.
      cbn [app level pin_eqb].
      rewrite level_SRAM_CS_command. cbn [app level pin_eqb].
      rewrite level_echo. cbn [app level pin_eqb].
      rewrite level_SRAM_CS_command. cbn [app level pin_eqb].
      rewrite level_echo. cbn [app level pin_eqb].
      apply level_SRAM_CS_update.
  - destruct Hready as [Hb Hr].
    destruct (_bw_buffer self) as [b1|] eqn:E1; [|contradiction].
    destruct (_red_buffer self) as [b2|] eqn:E2; [|contradiction].
    do 2 eexists.
    split; [apply (display_buffer_run SRAM_READ self w b1 b2 Hs Hfree E1 E2)|].
    split; [reflexivity|]. split; [reflexivity|].
    split; [|discriminate].
    intros cs0. unfold display_buffer_events.
    rewrite !app_assoc, level_app. apply level_CS_update.
Qed.

Lemma display_ends_released_witness :
  exists w' evs,
    Adafruit_IL0373.display 0x03 panel_152 idle = Return tt w' /\
    Bus.log w' = evs /\
    Bus.locked w' = false /\
    (forall cs0, level Bus.CS cs0 evs = true) /\
    (forall sram_cs0, level Bus.SRAM_CS sram_cs0 evs = true).
Proof.
  destruct (display_ends_released 0x03 panel_152 idle)
    as (w' & evs & Hrun & Hlog & Hfree & Hcs & Hsram).
  - split; [reflexivity|]. cbn. repeat split; try lia; discriminate.
  - exists w', evs. repeat split; try assumption.
    apply Hsram. reflexivity.
Defined.

(** X13. With a store whose plane has 65536 bytes or more, [display] raises
    ValueError when it builds the two-byte address of the red plane (line
    155): the controller has seen the opcodes up to DTM1 and the whole first
    pass, the DTM2 pass never starts, and the call leaves the bus locked and
    the store selected. *)
Theorem display_large_plane_stops_locked (SRAM_READ : Z) (self : panel) (w : Bus.t) :
  has_sram self = true ->
  Bus.locked w = false ->
  0 <= SRAM_READ < 256 ->
  65536 <= Adafruit_IL0373.bw_bufsize self ->
  exists w' evs,
    Adafruit_IL0373.display SRAM_READ self w = Raise ValueError w' /\
    Bus.log w' = Bus.log w ++ evs /\
    Bus.locked w' = true /\
    (forall sram_cs0, level Bus.SRAM_CS sram_cs0 evs = false) /\
    (forall cs dc,
       controller_commands cs dc evs = [0x04; 0x00; 0x50; 0x30; 0x61; 0x82; 0x10]).
Proof.
  intros Hs Hfree Hop Hbw.
  pose (n := Z.to_nat (Adafruit_IL0373.bw_bufsize self)).
  exists (after w true (n + 7) (busy_waits self + 0)
            (power_up_events self w 0 0 ++ [Bus.TryLock] ++
             read_from SRAM_READ [0x00; 0x00] ++
             pass_events w Adafruit_IL0373._IL0373_DTM1 6 n ++
             [Bus.Sleep 2; Bus.PinSet Bus.SRAM_CS false; Bus.BusWrite [SRAM_READ]])).
  eexists.
  split.
  { rewrite (free_bus w Hfree) at 1.
    unfold Adafruit_IL0373.display. rewrite Hs.
    eapply bind_run; [apply power_up_run|cbv beta].
    apply bind_Raise.
    do 2 step.
    eapply bind_run; [apply bytearray_run, one_byte_ok, Hop|cbv beta].
    do 7 step.
    eapply bind_run; [apply bytearray_run, one_byte_ok, rx_byte|cbv beta].
    eapply bind_run; [apply echo_loop_run|cbv beta].
    do 4 step.
    eapply bind_run; [apply bytearray_run, one_byte_ok, Hop|cbv beta].
    step.
    apply bind_Raise.
    unfold Bus.bytearray. cbn [forallb].
    replace (Z.shiftr (Adafruit_IL0373.bw_bufsize self) 8 <? 256) with false.
    - rewrite andb_false_r. unfold raise. f_equal.
      unfold read_from, pass_events. fold n.
      rewrite <- !app_assoc. reflexivity.
    - symmetry. apply Z.ltb_ge.
      rewrite Z.shiftr_div_pow2 by lia. change (2 ^ 8) with 256.
      apply Z.div_le_lower_bound; lia. }
  split; [reflexivity|]. split; [reflexivity|].
  unfold read_from, pass_events. split.
  - intros s0. rewrite level_SRAM_CS_power_up.
    cbn [app level pin_eqb].
    rewrite <- !app_assoc, level_SRAM_CS_command. cbn [app level pin_eqb].
    rewrite <- !app_assoc, level_echo. reflexivity.
  - intros cs dc. rewrite cc_power_up.
    cbn [app controller_commands negb andb].
    rewrite <- !app_assoc, cc_command_keep.
    cbn [app controller_commands negb andb].
    rewrite <- !app_assoc, cc_echo. reflexivity.
Qed.

Lemma display_large_plane_stops_locked_witness :
  exists w' evs,
    Adafruit_IL0373.display 0x03 panel_1024x512 idle = Raise ValueError w' /\
    Bus.log w' = evs /\
    Bus.locked w' = true /\
    (forall sram_cs0, level Bus.SRAM_CS sram_cs0 evs = false) /\
    (forall cs dc,
       controller_commands cs dc evs = [0x04; 0x00; 0x50; 0x30; 0x61; 0x82; 0x10]).
Proof.
  apply (display_large_plane_stops_locked 0x03 panel_1024x512 idle).
  - reflexivity.
  - reflexivity.
  - lia.
  - vm_compute. discriminate.
Defined.

(** X14. [display] called while the bus is held never returns: it selects
    the display for the power-on command and then spins on [try_lock], with
    nothing sent. *)
Theorem display_spins_on_held_bus (SRAM_READ : Z) (self : panel) (w : Bus.t) :
  Bus.locked w = true ->
  exists w',
    Adafruit_IL0373.display SRAM_READ self w = Hang w' /\
    Bus.log w' =
      Bus.log w ++
      [Bus.PinSet Bus.CS true; Bus.PinSet Bus.DC false; Bus.PinSet Bus.CS false].
Proof.
  intros Hheld.
  assert (Hw : after w true 0 0 [] = w).
  { rewrite <- Hheld. apply after_init. }
  exists (after w true 0 0
            [Bus.PinSet Bus.CS true; Bus.PinSet Bus.DC false; Bus.PinSet Bus.CS false]).
  split; [|reflexivity].
  rewrite <- Hw at 1.
  unfold Adafruit_IL0373.display, Adafruit_IL0373.power_up, command.
  do 2 apply bind_Hang.
  do 3 (eapply bind_run; [apply set_value_run|]).
  apply bind_Hang, try_lock_held.
Qed.

Lemma display_spins_on_held_bus_witness :
  exists w',
    Adafruit_IL0373.display 0x03 panel_152 held = Hang w' /\
    Bus.log w' =
      [Bus.PinSet Bus.CS true; Bus.PinSet Bus.DC false; Bus.PinSet Bus.CS false].
Proof.
  apply (display_spins_on_held_bus 0x03 panel_152 held).
  reflexivity.
Defined.

(** X15. Without a store and without the attribute [_bw_buffer], which no
    method of the two classes assigns, [display] raises AttributeError after
    the DTM1 opcode: no plane byte is sent, and the call leaves the bus locked
    and the display selected. *)
Theorem display_without_store_needs_buffer (SRAM_READ : Z) (self : panel) (w : Bus.t) :
  has_sram self = false ->
  _bw_buffer self = None ->
  Bus.locked w = false ->
  exists w' evs,
    Adafruit_IL0373.display SRAM_READ self w = Raise AttributeError w' /\
    Bus.log w' = Bus.log w ++ evs /\
    Bus.locked w' = true /\
    (forall cs0, level Bus.CS cs0 evs = false) /\
    (forall cs dc,
       controller_commands cs dc evs = [0x04; 0x00; 0x50; 0x30; 0x61; 0x82; 0x10]).
Proof.
  intros Hs Hb Hfree.
  exists (after w true 7 (busy_waits self + 0)
            (power_up_events self w 0 0 ++
             command_events Adafruit_IL0373._IL0373_DTM1 None false (rx w 6) ++
             [Bus.TryLock; Bus.PinSet Bus.DC true])).
  eexists.
  split.
  { rewrite (free_bus w Hfree) at 1.
    unfold Adafruit_IL0373.display. rewrite Hs, Hb.
    eapply bind_run; [apply power_up_run|cbv beta].
    apply bind_Raise.
    do 3 step.
    apply bind_Raise.
    unfold Adafruit_IL0373.getattr, raise. f_equal.
    rewrite <- !app_assoc. reflexivity. }
  split; [reflexivity|]. split; [reflexivity|].
  split.
  - intros cs0. rewrite level_CS_power_up, level_CS_command. reflexivity.
  - intros cs dc. rewrite cc_power_up, cc_command_keep. reflexivity.
Qed.

Lemma display_without_store_needs_buffer_witness :
  exists w' evs,
    Adafruit_IL0373.display 0x03 panel_bare idle = Raise AttributeError w' /\
    Bus.log w' = evs /\
    Bus.locked w' = true /\
    (forall cs0, level Bus.CS cs0 evs = false) /\
    (forall cs dc,
       controller_commands cs dc evs = [0x04; 0x00; 0x50; 0x30; 0x61; 0x82; 0x10]).
Proof.
  apply (display_without_store_needs_buffer 0x03 panel_bare idle); reflexivity.
Defined.

(* ===================================================================== *)
(** * Start-up *)

Lemma on_bus_run {A} (m : M Bus.t A) (w w' : Bus.t) (a : A) (r : list (nat * bool)) :
  m w = Return a w' ->
  Board.on_bus m {| Board.bus := w; Board.rst_writes := r |} =
  Return a {| Board.bus := w'; Board.rst_writes := r |}.
Proof. intros H. unfold Board.on_bus. cbn [Board.bus Board.rst_writes]. rewrite H. reflexivity. Qed.

Ltac board_step :=
  eapply bind_run;
  [ first [ apply on_bus_run;
            first [ apply set_value_run | apply sleep_run | apply wait_busy_run
                  | apply command_run; unfold Adafruit_IL0373._IL0373_POWER_SETTING,
                      Adafruit_IL0373._IL0373_BOOSTER_SOFT_START; lia ]
          | apply bytearray_run; reflexivity
          | reflexivity ]
  | cbv beta ].

(** [begin] of the driver, run to its end. *)
Lemma begin_run (self : panel) (reset : bool) (w : Bus.t) (r : list (nat * bool)) :
  Bus.locked w = false ->
  has_busy self = true ->
  Adafruit_IL0373.begin self reset {| Board.bus := w; Board.rst_writes := r |} =
  Return tt
    {| Board.bus := after w false 2 1 (begin_events self reset w);
       Board.rst_writes :=
         r ++ if reset
              then [(length (Bus.log w) + 2, false); (length (Bus.log w) + 3, true)]%nat
              else [] |}.
Proof.
  intros Hfree Hbusy.
  rewrite (free_bus w Hfree) at 1.
  unfold Adafruit_IL0373.begin, Adafruit_EPD.begin, Adafruit_IL0373.busy_value_wait,
    begin_events.
  rewrite Hbusy.
  destruct reset.
  - eapply bind_run.
    { do 2 board_step.
      eapply bind_run; [reflexivity|cbv beta].
      board_step.
      eapply bind_run; [reflexivity|cbv beta].
      apply on_bus_run, sleep_run. }
    cbv beta. do 5 board_step.
    unfold ret. f_equal. f_equal.
    + f_equal. rewrite <- !app_assoc. reflexivity.
    + cbn [Board.bus Board.rst_writes Bus.log after].
      rewrite !length_app, <- app_assoc. cbn [length app].
      repeat f_equal; lia.
  - eapply bind_run.
    { do 2 board_step. reflexivity. }
    cbv beta. do 5 board_step.
    unfold ret. f_equal. f_equal.
    + f_equal. rewrite <- !app_assoc. reflexivity.
    + cbn [Board.rst_writes]. symmetry. apply app_nil_r.
Qed.

(** X16. On a free bus and a panel with a busy line, [begin] of the driver
    returns with the bus free and the display deselected; the controller has
    taken exactly the opcodes 0x01 (power setting) and 0x06 (booster soft
    start), with the payloads 03 00 2b 2b 09 and 17 17 17. *)
Theorem begin_configures_power (self : panel) (reset : bool) (b : Board.t) :
  Bus.locked (Board.bus b) = false ->
  has_busy self = true ->
  exists b' evs,
    Adafruit_IL0373.begin self reset b = Return tt b' /\
    Bus.log (Board.bus b') = Bus.log (Board.bus b) ++ evs /\
    Bus.locked (Board.bus b') = false /\
    (forall cs dc, controller_commands cs dc evs = [0x01; 0x06]) /\
    (forall cs dc, controller_data cs dc evs =
                   [0x03; 0x00; 0x2b; 0x2b; 0x09; 0x17; 0x17; 0x17]) /\
    (forall cs0, level Bus.CS cs0 evs = true).
Proof.
  intros Hfree Hbusy. destruct b as [w r]. cbn [Board.bus] in *.
  do 2 eexists.
  split; [apply (begin_run self reset w r Hfree Hbusy)|].
  split; [reflexivity|]. split; [reflexivity|].
  unfold begin_events.
  split; [|split]; intros; destruct reset; cbn [app controller_commands controller_data level pin_eqb].
  - rewrite cc_polls, !cc_command_data. reflexivity.
  - rewrite cc_polls, !cc_command_data. reflexivity.
  - rewrite cd_polls, !cd_command_data. reflexivity.
  - rewrite cd_polls, !cd_command_data. reflexivity.
  - rewrite level_polls, !level_CS_command. reflexivity.
  - rewrite level_polls, !level_CS_command. reflexivity.
Qed.

Lemma begin_configures_power_witness :
  exists b' evs,
    Adafruit_IL0373.begin panel_152 true fresh_board = Return tt b' /\
    Bus.log (Board.bus b') = evs /\
    Bus.locked (Board.bus b') = false /\
    (forall cs dc, controller_commands cs dc evs = [0x01; 0x06]) /\
    (forall cs dc, controller_data cs dc evs =
                   [0x03; 0x00; 0x2b; 0x2b; 0x09; 0x17; 0x17; 0x17]) /\
    (forall cs0, level Bus.CS cs0 evs = true).
Proof.
  apply (begin_configures_power panel_152 true fresh_board); reflexivity.
Defined.

(** X17. On a free bus and a panel with a busy line, [begin] with [reset]
    drives the reset pin low right after it has deselected the display and set
    the data/command line low, and high again after one sleep of 100 ms, one
    more sleep of 100 ms before the first poll of the busy line; without
    [reset] it never drives the reset pin. *)
Theorem begin_reset_pulse (self : panel) (reset : bool) (b : Board.t) :
  Bus.locked (Board.bus b) = false ->
  has_busy self = true ->
  let n := length (Bus.log (Board.bus b)) in
  exists b' rest,
    Adafruit_IL0373.begin self reset b = Return tt b' /\
    (if reset
     then Bus.log (Board.bus b') =
            Bus.log (Board.bus b) ++
            [Bus.PinSet Bus.CS true; Bus.PinSet Bus.DC false; Bus.Sleep 100; Bus.Sleep 100] ++
            Bus.BusyRead (match Bus.ready_after (Board.bus b) (Bus.waited (Board.bus b)) with
                          | O => true | S _ => false end) :: rest /\
          Board.rst_writes b' =
            Board.rst_writes b ++ [(n + 2, false); (n + 3, true)]%nat
     else Board.rst_writes b' = Board.rst_writes b).
Proof.
  intros Hfree Hbusy n. destruct b as [w r]. cbn [Board.bus Board.rst_writes] in *.
  destruct reset.
  - destruct (Bus.ready_after w (Bus.waited w)) as [|k] eqn:Ek.
    + do 2 eexists. split; [apply (begin_run self true w r Hfree Hbusy)|].
      cbn [Board.bus Board.rst_writes]. split; [|reflexivity].
      rewrite log_after. unfold begin_events.
      rewrite Nat.add_0_r, Ek. cbn [app polls]. reflexivity.
    + do 2 eexists. split; [apply (begin_run self true w r Hfree Hbusy)|].
      cbn [Board.bus Board.rst_writes]. split; [|reflexivity].
      rewrite log_after. unfold begin_events.
      rewrite Nat.add_0_r, Ek. cbn [app polls]. reflexivity.
  - eexists. exists []. split; [apply (begin_run self false w r Hfree Hbusy)|].
    cbn [Board.rst_writes]. apply app_nil_r.
Qed.

Lemma begin_reset_pulse_witness :
  exists b' rest,
    Adafruit_IL0373.begin panel_152 true fresh_board = Return tt b' /\
    Bus.log (Board.bus b') =
      [Bus.PinSet Bus.CS true; Bus.PinSet Bus.DC false; Bus.Sleep 100; Bus.Sleep 100] ++
      Bus.BusyRead false :: rest /\
    Board.rst_writes b' = [(2, false); (3, true)]%nat.
Proof.
  apply (begin_reset_pulse panel_152 true fresh_board); reflexivity.
Defined.

(** X18. The driver's constructor passes its collaborators to the base
    constructor in another order than the base declares them. On the object it
    builds, [_cs] is the caller's reset pin, [_dc] the caller's chip-select,
    [_rst] the caller's bus, [_busy] the caller's data/command pin and
    [spi_device] the caller's busy pin; the store gets the caller's store
    chip-select, and the caller's busy pin as its bus. Directions are set
    accordingly: the caller's busy pin gets none, the data/command pin is made
    an input. *)
Theorem driver_constructor_wiring {A : Type} (width_ height_ : Z)
    (spi cs_pin dc_pin sramcs_pin rst_pin busy_pin : A) :
  let self :=
    Adafruit_IL0373.Init.base
      (Adafruit_IL0373.__init__ width_ height_ spi cs_pin dc_pin sramcs_pin rst_pin busy_pin) in
  Adafruit_EPD.Init.width self = width_ /\
  Adafruit_EPD.Init.height self = height_ /\
  Adafruit_EPD.Init._cs self = rst_pin /\
  Adafruit_EPD.Init._dc self = cs_pin /\
  Adafruit_EPD.Init._rst self = spi /\
  Adafruit_EPD.Init._busy self = dc_pin /\
  Adafruit_EPD.Init.spi_device self = busy_pin /\
  Adafruit_EPD.Init.sram self = (sramcs_pin, busy_pin) /\
  Adafruit_EPD.Init.directions self =
    [(spi, OUTPUT); (dc_pin, INPUT); (cs_pin, OUTPUT); (rst_pin, OUTPUT)].
Proof. cbv zeta. repeat split. Qed.

(* ===================================================================== *)
(** * More on the drawing surface *)

Lemma length_column (n : nat) (a b : Z) (color : value) :
  length (column n a b color) = n.
Proof.
  revert b. induction n as [|n IH]; intros b; cbn [column length].
  - reflexivity.
  - rewrite IH. reflexivity.
Qed.

Lemma length_columns (n m : nat) (a b : Z) (color : value) :
  length (columns n m a b color) = (n * m)%nat.
Proof.
  revert a. induction n as [|n IH]; intros a; cbn [columns].
  - reflexivity.
  - rewrite length_app, length_column, IH. reflexivity.
Qed.

(** X19. [fill_rect], for every rectangle and every panel, returns, leaves
    the store alone and calls [draw_pixel(a, b, color)] exactly once for each
    cell (a, b) of the rectangle that lies inside the panel and for nothing
    else; the number of calls is the area of the clipped rectangle. An empty
    or wholly outside rectangle draws nothing. *)
Theorem fill_rect_covers_clipped_rectangle
    (self : panel) (x y w h : Z) (color : value) (st : surface) :
  exists cells,
    fill_rect self [Int x; Int y; Int w; Int h; color] st =
      Return tt {| sram := sram st; drawn := drawn st ++ cells |} /\
    NoDup cells /\
    (forall p q c,
       In (p, q, c) cells <->
       exists a b, p = Int a /\ q = Int b /\ c = color /\
                   x <= a < x + w /\ y <= b < y + h /\
                   0 <= a < width self /\ 0 <= b < height self) /\
    length cells =
      (Z.to_nat (Z.min (width self) (x + w) - Z.max x 0) *
       Z.to_nat (Z.min (height self) (y + h) - Z.max y 0))%nat.
Proof.
  cbn [fill_rect]. unfold fill_rect_body.
  destruct ((w <? 1) || (h <? 1) || (x + w <=? 0)) eqn:E1.
  { exists []. rewrite app_nil_r. split; [destruct st; reflexivity|].
    split; [constructor|]. split.
    - intros p q c. split; [intros []|].
      intros (a & b & _ & _ & _ & Ha & Hb & Ha' & Hb').
      apply orb_true_iff in E1. destruct E1 as [E1|E1]; [|lia].
      apply orb_true_iff in E1. destruct E1 as [E1|E1]; lia.
    - cbn [length]. symmetry.
      apply orb_true_iff in E1. destruct E1 as [E1|E1].
      + apply orb_true_iff in E1. destruct E1 as [E1|E1].
        * replace (Z.to_nat (Z.min (width self) (x + w) - Z.max x 0)) with 0%nat by lia.
          reflexivity.
        * replace (Z.to_nat (Z.min (height self) (y + h) - Z.max y 0)) with 0%nat by lia.
          apply Nat.mul_0_r.
      + replace (Z.to_nat (Z.min (width self) (x + w) - Z.max x 0)) with 0%nat by lia.
        reflexivity. }
  destruct ((y + h <=? 0) || (y >=? height self) || (x >=? width self)) eqn:E2.
  { exists []. rewrite app_nil_r. split; [destruct st; reflexivity|].
    split; [constructor|]. split.
    - intros p q c. split; [intros []|].
      intros (a & b & _ & _ & _ & Ha & Hb & Ha' & Hb').
      apply orb_true_iff in E2. destruct E2 as [E2|E2]; [|lia].
      apply orb_true_iff in E2. destruct E2 as [E2|E2]; lia.
    - cbn [length]. symmetry.
      apply orb_true_iff in E2. destruct E2 as [E2|E2].
      + apply orb_true_iff in E2. destruct E2 as [E2|E2].
        * replace (Z.to_nat (Z.min (height self) (y + h) - Z.max y 0)) with 0%nat by lia.
          apply Nat.mul_0_r.
        * replace (Z.to_nat (Z.min (height self) (y + h) - Z.max y 0)) with 0%nat by lia.
          apply Nat.mul_0_r.
      + replace (Z.to_nat (Z.min (width self) (x + w) - Z.max x 0)) with 0%nat by lia.
        reflexivity. }
  eexists. cbv zeta.
  split; [unfold for_range; apply (outer_loop_draws _ _ (Z.max x 0) (Z.max y 0) 0)|].
  split; [apply NoDup_columns|].
  split; [|apply length_columns].
  intros p q c. rewrite in_columns.
  split.
  - intros (a & b & -> & -> & -> & Ha & Hb). exists a, b. repeat split; lia.
  - intros (a & b & -> & -> & -> & Ha & Hb & Ha' & Hb').
    exists a, b. repeat split; lia.
Qed.

(** X20. [hline] returns and calls [draw_pixel(a, y, color)] exactly once for
    each a with x <= a < x + width inside the panel, provided row y is inside
    the panel, and draws nothing otherwise. *)
Theorem hline_covers_clipped_row (self : panel) (x y w color : Z) (st : surface) :
  exists cells,
    hline self x y w color st =
      Return tt {| sram := sram st; drawn := drawn st ++ cells |} /\
    NoDup cells /\
    forall p q c,
      In (p, q, c) cells <->
      exists a, p = Int a /\ q = Int y /\ c = Int color /\
                x <= a < x + w /\ 0 <= a < width self /\ 0 <= y < height self.
Proof.
  destruct (fill_rect_draws_each_cell_once self x y w 1 (Int color) st)
    as (cells & Hrun & Hnd & Hin).
  exists cells. split; [exact Hrun|]. split; [exact Hnd|].
  intros p q c. rewrite Hin. split.
  - intros (a & b & -> & -> & -> & Ha & Hb & Ha' & Hb').
    assert (b = y) by lia. subst b. exists a. repeat split; lia.
  - intros (a & -> & -> & -> & Ha & Ha' & Hy).
    exists a, y. repeat split; lia.
Qed.

(** X21. [vline] returns and calls [draw_pixel(x, b, color)] exactly once for
    each b with y <= b < y + height inside the panel, provided column x is
    inside the panel, and draws nothing otherwise. *)
Theorem vline_covers_clipped_column (self : panel) (x y h color : Z) (st : surface) :
  exists cells,
    vline self x y h color st =
      Return tt {| sram := sram st; drawn := drawn st ++ cells |} /\
    NoDup cells /\
    forall p q c,
      In (p, q, c) cells <->
      exists b, p = Int x /\ q = Int b /\ c = Int color /\
                y <= b < y + h /\ 0 <= x < width self /\ 0 <= b < height self.
Proof.
  destruct (fill_rect_draws_each_cell_once self x y 1 h (Int color) st)
    as (cells & Hrun & Hnd & Hin).
  exists cells. split; [exact Hrun|]. split; [exact Hnd|].
  intros p q c. rewrite Hin. split.
  - intros (a & b & -> & -> & -> & Ha & Hb & Ha' & Hb').
    assert (a = x) by lia. subst a. exists b. repeat split; lia.
  - intros (b & -> & -> & -> & Hb & Hx & Hb').
    exists x, b. repeat split; lia.
Qed.

(** X22. [rect] draws its top edge on row y and its bottom edge on row
    y + height, each clipped to the panel, and then raises TypeError: no
    vertical edge is ever drawn. *)
Theorem rect_draws_two_rows_then_raises
    (self : panel) (x y w h color : Z) (st : surface) :
  exists top bottom,
    rect self x y w h color st =
      Raise TypeError {| sram := sram st; drawn := drawn st ++ top ++ bottom |} /\
    (forall p q c,
       In (p, q, c) top <->
       exists a, p = Int a /\ q = Int y /\ c = Int color /\
                 x <= a < x + w /\ 0 <= a < width self /\ 0 <= y < height self) /\
    (forall p q c,
       In (p, q, c) bottom <->
       exists a, p = Int a /\ q = Int (y + h) /\ c = Int color /\
                 x <= a < x + w /\ 0 <= a < width self /\ 0 <= y + h < height self).
Proof.
  destruct (hline_draws_each_cell_once self x y w color st)
    as (top & Htop & _ & Hin1).
  destruct (hline_draws_each_cell_once self x (y + h) w color (draws st top))
    as (bottom & Hbottom & _ & Hin2).
  exists top, bottom.
  split; [|split; assumption].
  unfold rect.
  eapply bind_run; [exact Htop|].
  eapply bind_run; [exact Hbottom|].
  rewrite draws_draws. reflexivity.
Qed.

(* ===================================================================== *)
(** * Loading an image *)

Lemma for_from_ext {St} (n : nat) (i : Z) (f g : Z -> M St unit) (st : St) :
  (forall j s, i <= j < i + Z.of_nat n -> f j s = g j s) ->
  for_from n i f st = for_from n i g st.
Proof.
  revert i st. induction n as [|n IH]; intros i st H; [reflexivity|].
  cbn [for_from]. unfold bind.
  rewrite (H i st) by lia.
  destruct (g i st); try reflexivity.
  apply IH. intros j s' Hj. apply H. lia.
Qed.

(** A loop whose every round returns and keeps an invariant returns and
    keeps it. *)
Lemma for_from_invariant {St} (I : Z -> St -> Prop) (n : nat) (i : Z)
    (body : Z -> M St unit) (st : St) :
  I i st ->
  (forall j s, i <= j < i + Z.of_nat n -> I j s ->
               exists s', body j s = Return tt s' /\ I (j + 1) s') ->
  exists st', for_from n i body st = Return tt st' /\ I (i + Z.of_nat n) st'.
Proof.
  revert i st. induction n as [|n IH]; intros i st H0 Hstep.
  - exists st. split; [reflexivity|]. rewrite Z.add_0_r. exact H0.
  - destruct (Hstep i st ltac:(lia) H0) as (s1 & Hrun & H1).
    destruct (IH (i + 1) s1 H1) as (st' & Hrest & Hend).
    { intros j s Hj. apply Hstep. lia. }
    exists st'. split.
    + cbn [for_from]. eapply bind_run; [exact Hrun | exact Hrest].
    + replace (i + Z.of_nat (S n)) with (i + 1 + Z.of_nat n) by lia. exact Hend.
Qed.

Lemma rgb_mode_check (img : PIL.image) :
  PIL.mode img = PIL.RGB -> negb (String.eqb (PIL.mode img) PIL.RGB) = false.
Proof. intros ->. rewrite String.eqb_refl. reflexivity. Qed.

(** X23. [image] refuses an image whose mode is not RGB or whose size is not
    the size of the panel: it raises ValueError and has not touched the
    store. *)
Theorem image_rejects_wrong_mode_or_size (self : panel) (img : PIL.image) (st : surface) :
  PIL.mode img <> PIL.RGB \/ PIL.size img <> (width self, height self) ->
  Adafruit_IL0373.image self img st = Raise ValueError st.
Proof.
  intros H. unfold Adafruit_IL0373.image.
  destruct (String.eqb (PIL.mode img) PIL.RGB) eqn:Em; [|reflexivity].
  apply String.eqb_eq in Em.
  destruct H as [H | H]; [contradiction|].
  destruct (PIL.size img) as [imwidth imheight].
  cbn [negb].
  destruct (imwidth =? width self) eqn:Ew; [|reflexivity].
  destruct (imheight =? height self) eqn:Eh; [|reflexivity].
  apply Z.eqb_eq in Ew, Eh. subst. contradiction.
Qed.

Lemma image_rejects_wrong_mode_or_size_witness :
  Adafruit_IL0373.image panel_152 small_image blank = Raise ValueError blank.
Proof.
  apply (image_rejects_wrong_mode_or_size panel_152 small_image blank).
  right. discriminate.
Defined.

(** What [image] does is, pixel by pixel, what [pixel] does with the colour
    of the image pixel. *)
Lemma image_as_pixels (self : panel) (img : PIL.image) (rgb : Z -> Z -> Z * Z * Z)
    (st : surface) :
  has_sram self = true ->
  PIL.mode img = PIL.RGB ->
  PIL.size img = (width self, height self) ->
  (forall x y, 0 <= x < width self -> 0 <= y < height self ->
     PIL.pix img (if x =? 0 then 1 else x) y = inr (rgb (if x =? 0 then 1 else x) y)) ->
  Adafruit_IL0373.image self img st = paint_all self rgb st.
Proof.
  intros Hs Hmode Hsize Hreads.
  unfold Adafruit_IL0373.image.
  rewrite (rgb_mode_check img Hmode), Hsize, !Z.eqb_refl.
  cbn [negb orb fst snd].
  unfold paint_all, for_range.
  apply for_from_ext. intros y s Hy.
  apply for_from_ext. intros x s' Hx.
  cbv zeta.
  rewrite (Hreads x y) by lia.
  cbn [Adafruit_IL0373.getitem].
  unfold bind at 1. unfold ret at 1. cbv beta iota.
  unfold Adafruit_IL0373.pixel, Adafruit_IL0373.on_self_sram.
  rewrite Hs, (in_bounds_check self x y) by lia.
  unfold int_truediv.
  rewrite Z.quot_div_nonneg;
    [|pose proof (column_range self x ltac:(lia)); nia | lia].
  unfold colour_of.
  destruct (Adafruit_IL0373.rgb_eqb (rgb (if x =? 0 then 1 else x) y) (255, 0, 0));
    [reflexivity|].
  destruct (Adafruit_IL0373.rgb_eqb (rgb (if x =? 0 then 1 else x) y) (0, 0, 0));
    reflexivity.
Qed.



(** X25. [image] never reads column 0 of the image: two images of the same
    mode and size that agree on every column but column 0 are loaded with the
    same outcome. *)
Theorem image_ignores_column_0 (self : panel) (img1 img2 : PIL.image) (st : surface) :
  PIL.mode img1 = PIL.mode img2 ->
  PIL.size img1 = PIL.size img2 ->
  (forall x y, 1 <= x -> PIL.pix img1 x y = PIL.pix img2 x y) ->
  Adafruit_IL0373.image self img1 st = Adafruit_IL0373.image self img2 st.
Proof.
  intros Hmode Hsize Hpix.
  unfold Adafruit_IL0373.image. rewrite Hmode, Hsize.
  destruct (negb (String.eqb (PIL.mode img2) PIL.RGB)); [reflexivity|].
  destruct (PIL.size img2) as [imwidth imheight].
  destruct (negb (imwidth =? width self) || negb (imheight =? height self));
    [reflexivity|].
  unfold for_range.
  apply for_from_ext. intros y s Hy.
  apply for_from_ext. intros x s' Hx.
  cbv zeta. rewrite Hpix; [reflexivity|].
  destruct (x =? 0) eqn:E; [|apply Z.eqb_neq in E]; lia.
Qed.

Lemma image_ignores_column_0_witness :
  Adafruit_IL0373.image panel_152 striped_image blank =
  Adafruit_IL0373.image panel_152 striped_image_white_edge blank.
Proof.
  apply (image_ignores_column_0 panel_152 striped_image striped_image_white_edge blank).
  - reflexivity.
  - reflexivity.
  - intros x y Hx. cbn [PIL.pix striped_image striped_image_white_edge].
    replace (x =? 0) with false by (symmetry; apply Z.eqb_neq; lia).
    reflexivity.
Defined.


(** X26. Loading an RGB image of the panel's size whose pixels can be read
    costs the store exactly one read and one write per pixel: the number of
    store operations grows by 2 * width * height, and nothing is drawn through
    [draw_pixel]. *)
Theorem image_store_traffic (self : panel) (img : PIL.image)
    (rgb : Z -> Z -> Z * Z * Z) (st : surface) :
  has_sram self = true ->
  0 <= width self -> 0 <= height self ->
  PIL.mode img = PIL.RGB ->
  PIL.size img = (width self, height self) ->
  (forall x y, 0 <= x < width self -> 0 <= y < height self ->
     PIL.pix img (if x =? 0 then 1 else x) y = inr (rgb (if x =? 0 then 1 else x) y)) ->
  exists st',
    Adafruit_IL0373.image self img st = Return tt st' /\
    Z.of_nat (length (ops (sram st'))) =
      Z.of_nat (length (ops (sram st))) + 2 * width self * height self /\
    drawn st' = drawn st.
Proof.
  intros Hs Hw Hh Hmode Hsize Hreads.
  rewrite (image_as_pixels self img rgb st Hs Hmode Hsize Hreads).
  unfold paint_all, for_range.
  pose (L0 := Z.of_nat (length (ops (sram st)))).
  destruct (for_from_invariant
              (fun j s => Z.of_nat (length (ops (sram s))) = L0 + 2 * width self * j /\
                          drawn s = drawn st)
              (Z.to_nat (height self)) 0
              (fun y => for_from (Z.to_nat (width self)) 0 (fun x =>
                 Adafruit_IL0373.pixel self x y
                   (colour_of (rgb (if x =? 0 then 1 else x) y))))
              st) as (st' & Hrun & Hlen & Hdrawn).
  - split; [unfold L0; lia | reflexivity].
  - intros j s Hj [Hlen Hdrawn].
    destruct (for_from_invariant
                (fun x s' => Z.of_nat (length (ops (sram s'))) =
                               L0 + 2 * width self * j + 2 * x /\
                             drawn s' = drawn st)
                (Z.to_nat (width self)) 0
                (fun x => Adafruit_IL0373.pixel self x j
                            (colour_of (rgb (if x =? 0 then 1 else x) j)))
                s) as (s' & Hrow & Hlen' & Hdrawn').
    + split; [lia | exact Hdrawn].
    + intros x s0 Hx [Hl Hd].
      eexists. split; [apply pixel_sram_step; [exact Hs | lia | lia]|].
      cbn [sram ops drawn]. split; [|exact Hd].
      rewrite length_app. cbn [length]. lia.
    + exists s'. split; [exact Hrow|]. split; [lia | exact Hdrawn'].
  - exists st'. split; [exact Hrun|]. split; [unfold L0 in Hlen; lia | exact Hdrawn].
Qed.

Lemma image_store_traffic_witness :
  exists st',
    Adafruit_IL0373.image panel_152 striped_image blank = Return tt st' /\
    Z.of_nat (length (ops (sram st'))) = 46208 /\
    drawn st' = [].
Proof.
  apply (image_store_traffic panel_152 striped_image stripes blank).
  - reflexivity.
  - cbn; lia.
  - cbn; lia.
  - reflexivity.
  - reflexivity.
  - intros x y _ _. reflexivity.
Defined.




(** X28. The first pixel [image] reads is column 1 of row 0. When that
    access raises (an image one pixel wide has no column 1), [image] raises
    the same exception and has not touched the store. *)
Theorem image_fails_on_first_unreadable_pixel
    (self : panel) (img : PIL.image) (e : exn) (st : surface) :
  PIL.mode img = PIL.RGB ->
  PIL.size img = (width self, height self) ->
  1 <= width self -> 1 <= height self ->
  PIL.pix img 1 0 = inl e ->
  Adafruit_IL0373.image self img st = Raise e st.
Proof.
  intros Hmode Hsize Hw Hh Hpix.
  unfold Adafruit_IL0373.image.
  rewrite (rgb_mode_check img Hmode), Hsize, !Z.eqb_refl.
  cbn [negb orb fst snd]. unfold for_range.
  destruct (Z.to_nat (height self)) as [|m] eqn:Em; [lia|].
  destruct (Z.to_nat (width self)) as [|n] eqn:En; [lia|].
  cbn [for_from]. do 3 apply bind_Raise.
  cbn [Z.eqb]. rewrite Hpix. reflexivity.
Qed.

Lemma image_fails_on_first_unreadable_pixel_witness :
  Adafruit_IL0373.image panel_152 (unreadable_image TypeError) blank =
  Raise TypeError blank.
Proof.
  apply (image_fails_on_first_unreadable_pixel panel_152 (unreadable_image TypeError)
           TypeError blank).
  - reflexivity.
  - reflexivity.
  - cbn; lia.
  - cbn; lia.
  - reflexivity.
Defined.

(** X29. On a panel without a store the driver falls back on the base class,
    whose calls are TypeErrors: [fill] raises TypeError for every colour and
    [pixel] raises TypeError for every coordinate inside the panel, and
    neither draws anything. *)
Theorem driver_without_store_cannot_draw (self : panel) (x y color : Z) (st : surface) :
  has_sram self = false ->
  Adafruit_IL0373.fill self color st = Raise TypeError st /\
  (0 <= x < width self -> 0 <= y < height self ->
   Adafruit_IL0373.pixel self x y color st = Raise TypeError st).
Proof.
  intros Hs. split.
  - unfold Adafruit_IL0373.fill. rewrite Hs. reflexivity.
  - intros Hx Hy. unfold Adafruit_IL0373.pixel, pixel.
    rewrite Hs, (in_bounds_check self x y Hx Hy). reflexivity.
Qed.

Lemma driver_without_store_cannot_draw_witness :
  Adafruit_IL0373.fill panel_bare WHITE blank = Raise TypeError blank /\
  Adafruit_IL0373.pixel panel_bare 3 20 WHITE blank = Raise TypeError blank.
Proof.
  destruct (driver_without_store_cannot_draw panel_bare 3 20 WHITE blank) as [Hfill Hpixel].
  - reflexivity.
  - split; [exact Hfill|]. apply Hpixel; cbn; lia.
Defined.
